(** * Employee records application (app.py): model and verified properties

    The Flask views of [app.py] are embedded as functions from a request and
    an application state to a response and a new state.  The state holds the
    two tables ([User], [Employee]), the login session and the flashed
    messages.  A text is held as the bytes of its UTF-8 form.  The builtin
    [float] used to read the salary is modelled by its grammar, with the
    decimal digits and blanks of Unicode 14.0, and by correctly rounded
    binary64 values; the [Float] column by what SQLite keeps of a float.

    The route table sends GET to [index] and [logout], POST to
    [delete_employee], and GET or POST to [login], [add_employee] and
    [update_employee]; a view is modelled on the methods its route accepts. *)

From Stdlib Require Import ZArith List String Ascii Bool Lia.
From Stdlib Require Import Floats.SpecFloat.
Import ListNotations.

Local Open Scope string_scope.
Local Open Scope Z_scope.

(** ** Python's [float(str)] *)

Module PyFloat.

(** A Python float is an IEEE 754 binary64 value. *)
Definition prec : Z := 53.
Definition emax : Z := 1024.
Definition pyfloat : Type := spec_float.

(** The literal [0.0]. *)
Definition zero : pyfloat := S754_zero false.

Definition code (c : ascii) : Z := Z.of_nat (nat_of_ascii c).

(** White space removed around the text: tab, line feed, vertical tab, form
    feed, carriage return and the space. *)
Definition is_space (c : ascii) : bool :=
  let n := code c in
  ((9 <=? n) && (n <=? 13)) || (n =? 32).

Definition is_digit (c : ascii) : bool :=
  let n := code c in (48 <=? n) && (n <=? 57).

Definition digit_val (c : ascii) : Z := code c - 48.

Definition is_underscore (c : ascii) : bool := code c =? 95.

(** ASCII lower-casing, used to compare with [inf], [infinity], [nan]. *)
Definition lower (c : ascii) : ascii :=
  let n := code c in
  if (65 <=? n) && (n <=? 90) then ascii_of_nat (Z.to_nat (n + 32)) else c.

(** The value of a UTF-8 continuation byte. *)
Definition continuation (c : ascii) : option Z :=
  let n := code c in
  if (128 <=? n) && (n <=? 191) then Some (n - 128) else None.

(** The code points of a UTF-8 text; a byte that begins no well-formed
    sequence gives [-1]. *)
Fixpoint decode (s : list ascii) : list Z :=
  match s with
  | [] => []
  | b :: r =>
      let n := code b in
      let bad := -1 :: decode r in
      if n <? 128 then n :: decode r
      else
        match r with
        | c1 :: r1 =>
            match continuation c1 with
            | Some x1 =>
                if (194 <=? n) && (n <=? 223)
                then ((n - 192) * 64 + x1) :: decode r1
                else
                  match r1 with
                  | c2 :: r2 =>
                      match continuation c2 with
                      | Some x2 =>
                          if (224 <=? n) && (n <=? 239)
                          then ((n - 224) * 4096 + x1 * 64 + x2) :: decode r2
                          else
                            match r2 with
                            | c3 :: r3 =>
                                match continuation c3 with
                                | Some x3 =>
                                    if (240 <=? n) && (n <=? 244)
                                    then ((n - 240) * 262144 + x1 * 4096
                                          + x2 * 64 + x3) :: decode r3
                                    else bad
                                | None => bad
                                end
                            | [] => bad
                            end
                      | None => bad
                      end
                  | [] => bad
                  end
            | None => bad
            end
        | [] => bad
        end
  end.

(** The code points of the digit zero in the scripts beyond ASCII; the nine
    code points after each are its digits one to nine (Unicode 14.0). *)
Definition decimal_zeros : list Z :=
  [1632; 1776; 1984; 2406; 2534; 2662; 2790; 2918; 3046; 3174; 3302; 3430;
   3558; 3664; 3792; 3872; 4160; 4240; 6112; 6160; 6470; 6608; 6784; 6800;
   6992; 7088; 7232; 7248; 42528; 43216; 43264; 43472; 43504; 43600; 44016;
   65296; 66720; 68912; 69734; 69872; 69942; 70096; 70384; 70736; 70864;
   71248; 71360; 71472; 71904; 72016; 72784; 73040; 73120; 92768; 92864;
   93008; 120782; 120792; 120802; 120812; 120822; 123200; 123632; 125264;
   130032].

Definition unicode_decimal (cp : Z) : option Z :=
  match find (fun z => (z <=? cp) && (cp <=? z + 9)) decimal_zeros with
  | Some z => Some (cp - z)
  | None => None
  end.

(** The blanks beyond ASCII (Unicode 14.0). *)
Definition unicode_spaces : list Z :=
  [133; 160; 5760; 8192; 8193; 8194; 8195; 8196; 8197; 8198; 8199; 8200;
   8201; 8202; 8232; 8233; 8239; 8287; 12288].

Definition unicode_isspace (cp : Z) : bool :=
  existsb (Z.eqb cp) unicode_spaces.

(** A text with code points beyond ASCII is first brought to ASCII: code
    points below 127 stay, a blank becomes a space, a decimal digit its
    ASCII digit; at any other code point the text is cut and ends in a
    question mark. *)
Fixpoint to_ascii (cps : list Z) : list ascii :=
  match cps with
  | [] => []
  | cp :: r =>
      if (0 <=? cp) && (cp <? 127)
      then ascii_of_nat (Z.to_nat cp) :: to_ascii r
      else if unicode_isspace cp then " "%char :: to_ascii r
      else
        match unicode_decimal cp with
        | Some d => ascii_of_nat (Z.to_nat (48 + d)) :: to_ascii r
        | None => ["?"%char]
        end
  end.

Definition ascii_text (s : list ascii) : list ascii :=
  if forallb (fun c => code c <? 128) s then s else to_ascii (decode s).

Fixpoint lstrip (s : list ascii) : list ascii :=
  match s with
  | c :: s' => if is_space c then lstrip s' else s
  | [] => []
  end.

Definition strip (s : list ascii) : list ascii :=
  rev (lstrip (rev (lstrip s))).

(** Underscores are dropped when each stands between two digits; any other
    underscore makes the text invalid.  [prev] is the character before. *)
Fixpoint drop_underscores (prev : ascii) (s : list ascii)
  : option (list ascii) :=
  match s with
  | [] => if is_underscore prev then None else Some []
  | c :: s' =>
      if is_underscore c then
        if is_digit prev then drop_underscores c s' else None
      else if is_underscore prev && negb (is_digit c) then None
      else option_map (cons c) (drop_underscores c s')
  end.

(** Longest prefix of digits, and the rest. *)
Fixpoint span_digits (s : list ascii) : list ascii * list ascii :=
  match s with
  | c :: s' =>
      if is_digit c
      then let '(ds, rest) := span_digits s' in (c :: ds, rest)
      else ([], s)
  | [] => ([], [])
  end.

Definition digits_value (ds : list ascii) : Z :=
  fold_left (fun acc c => 10 * acc + digit_val c) ds 0.

(** An optional sign: [true] for minus. *)
Definition read_sign (s : list ascii) : bool * list ascii :=
  match s with
  | c :: s' =>
      if code c =? 45 then (true, s')
      else if code c =? 43 then (false, s')
      else (false, s)
  | [] => (false, [])
  end.

(** The exponent part: absent, or [e]/[E], an optional sign and at least one
    digit, up to the end of the text.  [None] when the text does not end
    there. *)
Definition read_exponent (s : list ascii) : option Z :=
  match s with
  | [] => Some 0
  | c :: s' =>
      if code (lower c) =? 101 then
        let '(neg, s'') := read_sign s' in
        match span_digits s'' with
        | ((_ :: _) as ds, []) =>
            Some (if neg then - digits_value ds else digits_value ds)
        | _ => None
        end
      else None
  end.

(** The binary64 value nearest to [(-1)^neg * m * 10^e] (ties to even). *)
Definition of_decimal (neg : bool) (m e : Z) : pyfloat :=
  match m with
  | Zpos p =>
      if 0 <=? e
      then binary_normalize prec emax
             (if neg then - (m * 10 ^ e) else m * 10 ^ e) 0 neg
      else SFdiv prec emax (S754_finite neg p 0)
             (S754_finite false (Z.to_pos (10 ^ (- e))) 0)
  | _ => S754_zero neg
  end.

(** A decimal numeral: digits, an optional point and digits, with at least
    one digit in all, then the exponent part. *)
Definition read_decimal (neg : bool) (s : list ascii) : option pyfloat :=
  let '(ip, rest) := span_digits s in
  let '(fp, rest') :=
    match rest with
    | c :: r => if code c =? 46 then span_digits r else ([], rest)
    | [] => ([], [])
    end in
  match (ip ++ fp)%list with
  | [] => None
  | _ :: _ =>
      match read_exponent rest' with
      | Some e =>
          Some (of_decimal neg (digits_value (ip ++ fp)%list)
                               (e - Z.of_nat (List.length fp)))
      | None => None
      end
  end.

(** [inf], [infinity] and [nan], in any letter case. *)
Definition read_inf_or_nan (neg : bool) (s : list ascii) : option pyfloat :=
  let w := string_of_list_ascii (map lower s) in
  if String.eqb w "inf" || String.eqb w "infinity"
  then Some (S754_infinity neg)
  else if String.eqb w "nan" then Some S754_nan
  else None.

(** [float(s)]: [None] stands for [ValueError]. *)
Definition float (s : string) : option pyfloat :=
  match drop_underscores Ascii.zero
          (strip (ascii_text (list_ascii_of_string s))) with
  | Some t =>
      let '(neg, body) := read_sign t in
      match read_decimal neg body with
      | Some x => Some x
      | None => read_inf_or_nan neg body
      end
  | None => None
  end.

(** [x] is finite and is exactly the rational [n / d]. *)
Definition is_ratio (x : pyfloat) (n d : Z) : Prop :=
  match x with
  | S754_zero _ => n = 0
  | S754_finite s m e =>
      let v := if s then Zneg m else Zpos m in
      if 0 <=? e then v * 2 ^ e * d = n else v * d = n * 2 ^ (- e)
  | S754_infinity _ | S754_nan => False
  end.

End PyFloat.

(** ** Requests, responses and the stored tables *)

Module User.
(** [class User(db.Model, UserMixin)].  [password_hash] is only ever written
    by [set_password], so it always holds a hash text. *)
Record t : Type := mk
  { id : Z;
    username : string;
    password_hash : string }.
End User.

Module Employee.
(** [class Employee(db.Model)]; the nullable columns are options. *)
Record t : Type := mk
  { id : Z;
    name : string;
    position : string;
    department : option string;
    email : string;
    salary : option PyFloat.pyfloat }.

Definition set_name (e : t) (v : string) : t :=
  mk (id e) v (position e) (department e) (email e) (salary e).
Definition set_position (e : t) (v : string) : t :=
  mk (id e) (name e) v (department e) (email e) (salary e).
Definition set_department (e : t) (v : option string) : t :=
  mk (id e) (name e) (position e) v (email e) (salary e).
Definition set_email (e : t) (v : string) : t :=
  mk (id e) (name e) (position e) (department e) v (salary e).
Definition set_salary (e : t) (v : option PyFloat.pyfloat) : t :=
  mk (id e) (name e) (position e) (department e) (email e) v.
End Employee.

(** The methods the routes of the views accept. *)
Inductive http_method : Type := GET | POST.

(** [request.form]: the submitted fields in order; a key may be repeated and
    the first value counts. *)
Definition MultiDict : Type := list (string * string).

Record request : Type := mk_request
  { method : http_method;
    form : MultiDict }.

(** [request.form.get(key)]: [None] when the key is absent. *)
Fixpoint form_get (f : MultiDict) (key : string) : option string :=
  match f with
  | (k, v) :: f' => if String.eqb k key then Some v else form_get f' key
  | [] => None
  end.

(** [request.form[key]]: the same lookup, where [None] stands for the
    [BadRequestKeyError] raised on an absent key (status 400). *)
Definition form_getitem (f : MultiDict) (key : string) : option string :=
  form_get f key.

(** Truth value of an optional text: [None] and the empty text are false. *)
Definition truthy (v : option string) : bool :=
  match v with
  | Some s => negb (String.eqb s "")
  | None => false
  end.

(** The text held by a value known to be truthy. *)
Definition text (v : option string) : string :=
  match v with
  | Some s => s
  | None => ""
  end.

(** The targets of [url_for]. *)
Inductive endpoint : Type :=
  | ep_login
  | ep_index
  | ep_add_employee
  | ep_update_employee (id : Z).

Inductive response : Type :=
  | Redirect (target : endpoint)
  | Render (template : string) (context : list Employee.t)
  | Abort (status : Z).

(** The state a request runs against: both tables as committed, the user id
    kept in the session, and the flashed messages (category, message). *)
Record state : Type := mk_state
  { users : list User.t;
    employees : list Employee.t;
    session_user_id : option Z;
    flashes : list (string * string) }.

Definition result : Type := response * state.

Definition flash (message category : string) (st : state) : state :=
  mk_state (users st) (employees st) (session_user_id st)
           (flashes st ++ [(category, message)]).

Definition set_employees (db : list Employee.t) (st : state) : state :=
  mk_state (users st) db (session_user_id st) (flashes st).

(** ** Queries and writes on the tables *)

(** [User.query.get(id)] *)
Definition user_get (uid : Z) (tbl : list User.t) : option User.t :=
  find (fun u => User.id u =? uid) tbl.

(** [User.query.filter_by(username=username).first()]; an absent username
    matches no row. *)
Definition user_filter_by_username (username : option string)
    (tbl : list User.t) : option User.t :=
  match username with
  | Some n => find (fun u => String.eqb (User.username u) n) tbl
  | None => None
  end.

(** [Employee.query.get_or_404(id)]: [None] stands for the 404 abort. *)
Definition get_or_404 (id : Z) (tbl : list Employee.t) : option Employee.t :=
  find (fun e => Employee.id e =? id) tbl.

(** [Employee.query.filter_by(email=email).first()] *)
Definition filter_by_email (email : option string) (tbl : list Employee.t)
  : option Employee.t :=
  match email with
  | Some m => find (fun e => String.eqb (Employee.email e) m) tbl
  | None => None
  end.

(** The key given to an inserted row: one more than the largest key in use,
    1 in an empty table (keys stay below the largest row id, 2^63 - 1). *)
Definition next_id (tbl : list Employee.t) : Z :=
  match map Employee.id tbl with
  | [] => 1
  | i :: l => 1 + fold_left Z.max l i
  end.

(** What the [Float] column keeps of a committed float: nan is bound as
    NULL and a zero keeps no sign; every other value is kept as it is. *)
Definition real_column (v : option PyFloat.pyfloat)
  : option PyFloat.pyfloat :=
  match v with
  | Some S754_nan => None
  | Some (S754_zero _) => Some (S754_zero false)
  | _ => v
  end.

(** The row as the table holds it after the commit. *)
Definition committed (e : Employee.t) : Employee.t :=
  Employee.set_salary e (real_column (Employee.salary e)).

(** [db.session.add(new); db.session.commit()] *)
Definition insert_row (new : Z -> Employee.t) (tbl : list Employee.t)
  : list Employee.t :=
  tbl ++ [committed (new (next_id tbl))].

(** [db.session.commit()] after attribute writes on a loaded row: the row
    with that key is rewritten. *)
Definition update_row (row : Employee.t) (tbl : list Employee.t)
  : list Employee.t :=
  map (fun e => if Employee.id e =? Employee.id row then committed row
                else e) tbl.

(** [db.session.delete(row); db.session.commit()] *)
Definition delete_row (row : Employee.t) (tbl : list Employee.t)
  : list Employee.t :=
  filter (fun e => negb (Employee.id e =? Employee.id row)) tbl.

(** The schema's constraints: [primary_key=True] and [unique=True]. *)
Definition unique_ids (tbl : list Employee.t) : Prop :=
  NoDup (map Employee.id tbl).

Definition unique_emails (tbl : list Employee.t) : Prop :=
  NoDup (map Employee.email tbl).

Definition unique_usernames (tbl : list User.t) : Prop :=
  NoDup (map User.username tbl).

(** ** Session handling (Flask-Login) *)

(** [current_user]: the user [load_user] finds for the id in the session. *)
Definition current_user (st : state) : option User.t :=
  match session_user_id st with
  | Some uid => user_get uid (users st)
  | None => None
  end.

Definition is_authenticated (st : state) : bool :=
  match current_user st with
  | Some _ => true
  | None => false
  end.

Definition login_user (u : User.t) (st : state) : state :=
  mk_state (users st) (employees st) (Some (User.id u)) (flashes st).

Definition logout_user (st : state) : state :=
  mk_state (users st) (employees st) None (flashes st).

(** [login_manager.unauthorized()] with [login_view = 'login']: the login
    message is flashed and the client is sent to the login view. *)
Definition unauthorized (st : state) : result :=
  (Redirect ep_login, flash "Please log in to access this page." "message" st).

(** [@login_required] *)
Definition login_required (view : state -> result) (st : state) : result :=
  if is_authenticated st then view st else unauthorized st.

(** ** The views *)

(** [float(salary_input) if salary_input else 0.0]; [None] stands for the
    [ValueError] caught by the view. *)
Definition read_salary (salary_input : option string)
  : option PyFloat.pyfloat :=
  if truthy salary_input then PyFloat.float (text salary_input)
  else Some PyFloat.zero.

Section Views.

(** [werkzeug.security.check_password_hash(pwhash, password)] *)
Variable check_password_hash : string -> string -> bool.

(** [User.check_password]; a request without a password field passes
    [None], on which the hash routine raises (status 500). *)
Definition check_password (u : User.t) (password : option string)
  : option bool :=
  match password with
  | Some p => Some (check_password_hash (User.password_hash u) p)
  | None => None
  end.

Definition login (req : request) (st : state) : result :=
  if is_authenticated st then (Redirect ep_index, st)
  else
    match method req with
    | POST =>
        let username := form_get (form req) "username" in
        let password := form_get (form req) "password" in
        let user := user_filter_by_username username (users st) in
        let failed :=
          (Render "login.html" [],
           flash "Login failed. Check your username and password." "danger"
                 st) in
        match user with
        | Some u =>
            match check_password u password with
            | Some true =>
                (Redirect ep_index,
                 flash "Login successful!" "success" (login_user u st))
            | Some false => failed
            | None => (Abort 500, st)
            end
        | None => failed
        end
    | GET => (Render "login.html" [], st)
    end.

End Views.

Definition logout : state -> result :=
  login_required (fun st => (Redirect ep_login, logout_user st)).

Definition index : state -> result :=
  login_required (fun st => (Render "index.html" (employees st), st)).

Definition add_employee (req : request) : state -> result :=
  login_required (fun st =>
    match method req with
    | POST =>
        let name := form_get (form req) "name" in
        let email := form_get (form req) "email" in
        let salary_input := form_get (form req) "salary" in
        if negb (truthy name) || negb (truthy email) then
          (Redirect ep_add_employee,
           flash "Error: Name and Email fields are required." "danger" st)
        else
        match filter_by_email email (employees st) with
        | Some _ =>
          (Redirect ep_add_employee,
           flash "Error: This email address is already registered." "danger"
                 st)
        | None =>
        match read_salary salary_input with
        | None =>
          (Redirect ep_add_employee,
           flash "Error: Salary must be a valid number." "danger" st)
        | Some salary =>
        match form_getitem (form req) "position" with
        | None => (Abort 400, st)
        | Some position =>
        match form_getitem (form req) "department" with
        | None => (Abort 400, st)
        | Some department =>
          let new_employee := fun id =>
            Employee.mk id (text name) position (Some department)
                        (text email) (Some salary) in
          (Redirect ep_index,
           flash ("Employee " ++ text name ++ " added successfully!")
                 "success"
                 (set_employees (insert_row new_employee (employees st)) st))
        end end end end
    | GET => (Render "add_employee.html" [], st)
    end).

(** The attribute writes act on the loaded row [employee]; the table changes
    at [commit] only, so an abort between two writes leaves it as it was. *)
Definition update_employee (id : Z) (req : request) : state -> result :=
  login_required (fun st =>
    match get_or_404 id (employees st) with
    | None => (Abort 404, st)
    | Some employee =>
    match method req with
    | POST =>
        let name := form_get (form req) "name" in
        let email := form_get (form req) "email" in
        let salary_input := form_get (form req) "salary" in
        if negb (truthy name) || negb (truthy email) then
          (Redirect (ep_update_employee id),
           flash "Error: Name and Email fields are required." "danger" st)
        else
        let existing_employee := filter_by_email email (employees st) in
        if match existing_employee with
           | Some e => negb (Employee.id e =? id)
           | None => false
           end
        then
          (Redirect (ep_update_employee id),
           flash
             "Error: This email address is already registered to another employee."
             "danger" st)
        else
        match read_salary salary_input with
        | None =>
          (Redirect (ep_update_employee id),
           flash "Error: Salary must be a valid number." "danger" st)
        | Some salary =>
          let employee := Employee.set_name employee (text name) in
        match form_getitem (form req) "position" with
        | None => (Abort 400, st)
        | Some position =>
          let employee := Employee.set_position employee position in
        match form_getitem (form req) "department" with
        | None => (Abort 400, st)
        | Some department =>
          let employee :=
            Employee.set_department employee (Some department) in
          let employee := Employee.set_email employee (text email) in
          let employee := Employee.set_salary employee (Some salary) in
          (Redirect ep_index,
           flash ("Employee " ++ text name ++ " updated successfully!")
                 "success"
                 (set_employees (update_row employee (employees st)) st))
        end end end
    | GET => (Render "update_employee.html" [employee], st)
    end
    end).

Definition delete_employee (id : Z) : state -> result :=
  login_required (fun st =>
    match get_or_404 id (employees st) with
    | None => (Abort 404, st)
    | Some employee =>
        let employee_name := Employee.name employee in
        (Redirect ep_index,
         flash ("Employee " ++ employee_name ++ " deleted successfully!")
               "success"
               (set_employees (delete_row employee (employees st)) st))
    end).

(** ** Concrete data used in the examples *)

Definition admin : User.t := User.mk 1 "admin" "hash:password123".

Definition ann : Employee.t :=
  Employee.mk 1 "Ann" "Eng" (Some "R&D") "ann@x.com"
              (Some (S754_finite false 6871947673600000 (-37))).

Definition bob : Employee.t :=
  Employee.mk 2 "Bob" "Eng" (Some "R&D") "bob@x.com" (Some PyFloat.zero).

(** A signed-in session over a given employee table. *)
Definition signed_in (tbl : list Employee.t) : state :=
  mk_state [admin] tbl (Some 1) [].

Definition anonymous (tbl : list Employee.t) : state :=
  mk_state [admin] tbl None [].

Definition post (f : MultiDict) : request := mk_request POST f.

(** The messages by which the views report the failures that the
    specification names. *)
Definition Unauthenticated : string := "Please log in to access this page.".
Definition InvalidCredentials : string :=
  "Login failed. Check your username and password.".
Definition MissingRequiredField : string :=
  "Error: Name and Email fields are required.".
Definition DuplicateEmail_add : string :=
  "Error: This email address is already registered.".
Definition DuplicateEmail_update : string :=
  "Error: This email address is already registered to another employee.".
Definition InvalidNumber : string := "Error: Salary must be a valid number.".

(** A failed validation: back to the form, with one [danger] message. *)
Definition add_fails (msg : string) (st : state) : result :=
  (Redirect ep_add_employee, flash msg "danger" st).

Definition update_fails (id : Z) (msg : string) (st : state) : result :=
  (Redirect (ep_update_employee id), flash msg "danger" st).

(** A POST whose [name] and [email] fields hold the given non-empty texts. *)
Definition submits (req : request) (name email : string) : Prop :=
  method req = POST /\
  form_get (form req) "name" = Some name /\ name <> "" /\
  form_get (form req) "email" = Some email /\ email <> "".

(** Some stored employee holds [email] / some other than [id] holds it. *)
Definition email_taken (email : string) (tbl : list Employee.t) : Prop :=
  exists e, In e tbl /\ Employee.email e = email.

Definition email_taken_by_other (id : Z) (email : string)
    (tbl : list Employee.t) : Prop :=
  exists e, In e tbl /\ Employee.email e = email /\ Employee.id e <> id.

(** A POST to the login view that carries both credentials. *)
Definition credentials (req : request) (username password : string) : Prop :=
  method req = POST /\
  form_get (form req) "username" = Some username /\
  form_get (form req) "password" = Some password.

(** Some stored user has this username and a hash the password verifies
    against. *)
Definition verifies (check : string -> string -> bool) (tbl : list User.t)
    (username password : string) : Prop :=
  exists u, In u tbl /\ User.username u = username /\
            check (User.password_hash u) password = true.

(** The answer to a failed login. *)
Definition login_fails (st : state) : result :=
  (Render "login.html" [], flash InvalidCredentials "danger" st).

(** A toy hash check for the examples: the hash of [p] is [hash:p]. *)
Definition toy_check (pwhash password : string) : bool :=
  String.eqb pwhash ("hash:" ++ password).

(** ** Start-up and the remaining methods *)

Section Seeding.

(** [werkzeug.security.generate_password_hash(password)]; the salt it draws
    is made an argument. *)
Variable generate_password_hash : string -> string -> string.

(** [User.set_password] *)
Definition set_password (u : User.t) (salt password : string) : User.t :=
  User.mk (User.id u) (User.username u)
          (generate_password_hash salt password).

(** The start-up block: when [User.query.first()] finds no user, the user
    [admin] is added with the default password (key 1 in the empty table);
    a table with a user is left alone. *)
Definition seed (salt : string) (tbl : list User.t) : list User.t :=
  match tbl with
  | [] => [set_password (User.mk 1 "admin" "") salt "password123"]
  | _ :: _ => tbl
  end.

End Seeding.

Definition set_users (tbl : list User.t) (st : state) : state :=
  mk_state tbl (employees st) (session_user_id st) (flashes st).

(** [Employee.__repr__] *)
Definition employee_repr (e : Employee.t) : string :=
  "<Employee " ++ Employee.name e ++ ">".

Definition get (f : MultiDict) : request := mk_request GET f.

(** The toy hash that [toy_check] verifies; it ignores the salt. *)
Definition toy_generate (salt password : string) : string :=
  "hash:" ++ password.

(** A POST that gives name and email, a readable salary, and the
    [position] and [department] keys. *)
Definition complete (req : request) (name email : string)
    (salary : PyFloat.pyfloat) (position department : string) : Prop :=
  submits req name email /\
  read_salary (form_get (form req) "salary") = Some salary /\
  form_get (form req) "position" = Some position /\
  form_get (form req) "department" = Some department.

(** [primary_key=True] on [User.id]. *)
Definition unique_user_ids (tbl : list User.t) : Prop :=
  NoDup (map User.id tbl).

(** [w] spells [pattern], which is in lower case, in any letter case. *)
Definition same_letters (w pattern : string) : Prop :=
  Forall2 (fun c p => c = p \/ (nat_of_ascii c + 32 = nat_of_ascii p)%nat)
          (list_ascii_of_string w) (list_ascii_of_string pattern).

(** The text with the given bytes. *)
Definition bytes (l : list Z) : string :=
  string_of_list_ascii (map (fun n => ascii_of_nat (Z.to_nat n)) l).

(** * Properties *)

(** ** Lists and tables *)

Lemma NoDup_map_eq {A B : Type} (f : A -> B) (l : list A) (a b : A) :
  NoDup (map f l) -> In a l -> In b l -> f a = f b -> a = b.
Proof.
  induction l as [|x l IH]; simpl; [tauto|].
  intros ND Ha Hb Hf. inversion ND as [|? ? Hnot ND']; subst.
  destruct Ha as [->|Ha], Hb as [->|Hb]; auto.
  - exfalso. apply Hnot. rewrite Hf. now apply in_map.
  - exfalso. apply Hnot. rewrite <- Hf. now apply in_map.
Qed.

Lemma truthy_Some (s : string) : s <> "" -> truthy (Some s) = true.
Proof.
  intros H. simpl. destruct (String.eqb_spec s ""); [contradiction|reflexivity].
Qed.

Lemma truthy_text (v : option string) :
  truthy v = true -> exists s, v = Some s /\ s <> "".
Proof.
  destruct v as [s|]; simpl; [|discriminate].
  destruct (String.eqb_spec s ""); [discriminate|]. intros _. now exists s.
Qed.

Lemma get_or_404_Some id tbl e :
  get_or_404 id tbl = Some e -> In e tbl /\ Employee.id e = id.
Proof.
  unfold get_or_404. intros H. apply find_some in H as [Hin Heq].
  split; [assumption | now apply Z.eqb_eq].
Qed.

Lemma get_or_404_None id tbl :
  get_or_404 id tbl = None <-> (forall e, In e tbl -> Employee.id e <> id).
Proof.
  unfold get_or_404. split.
  - intros H e Hin. apply Z.eqb_neq. exact (find_none _ _ H e Hin).
  - intros H. destruct (find _ tbl) as [e|] eqn:F; [|reflexivity].
    apply find_some in F as [Hin Heq]. apply Z.eqb_eq in Heq.
    now destruct (H e Hin).
Qed.

Lemma get_or_404_In id tbl e :
  unique_ids tbl -> In e tbl -> Employee.id e = id ->
  get_or_404 id tbl = Some e.
Proof.
  intros U Hin Hid. destruct (get_or_404 id tbl) as [e'|] eqn:G.
  - apply get_or_404_Some in G as [Hin' Hid']. f_equal.
    apply (NoDup_map_eq Employee.id tbl); auto. congruence.
  - rewrite get_or_404_None in G. now destruct (G e Hin).
Qed.

Lemma filter_by_email_Some m tbl e :
  filter_by_email (Some m) tbl = Some e -> In e tbl /\ Employee.email e = m.
Proof.
  simpl. intros H. apply find_some in H as [Hin Heq].
  split; [assumption | now apply String.eqb_eq].
Qed.

Lemma filter_by_email_None m tbl :
  filter_by_email (Some m) tbl = None <-> ~ email_taken m tbl.
Proof.
  simpl. split.
  - intros H [e [Hin Heq]]. pose proof (find_none _ _ H e Hin) as F.
    simpl in F. apply String.eqb_neq in F. contradiction.
  - intros H. destruct (find _ tbl) as [e|] eqn:F; [|reflexivity].
    apply find_some in F as [Hin Heq]. apply String.eqb_eq in Heq.
    destruct H. now exists e.
Qed.

Lemma login_required_in view st :
  is_authenticated st = true -> login_required view st = view st.
Proof. unfold login_required. now intros ->. Qed.

Lemma login_required_out view st :
  is_authenticated st = false -> login_required view st = unauthorized st.
Proof. unfold login_required. now intros ->. Qed.

Lemma fold_left_max_bounds (l : list Z) (i : Z) :
  i <= fold_left Z.max l i /\ (forall x, In x l -> x <= fold_left Z.max l i).
Proof.
  revert i. induction l as [|a l IH]; intros i; simpl.
  - split; [lia | tauto].
  - destruct (IH (Z.max i a)) as [H1 H2]. split; [lia|].
    intros x [<- | Hx]; [lia | auto].
Qed.

Lemma next_id_fresh (tbl : list Employee.t) (e : Employee.t) :
  In e tbl -> Employee.id e < next_id tbl.
Proof.
  intros Hin. apply (in_map Employee.id) in Hin. unfold next_id.
  destruct (map Employee.id tbl) as [|i l]; [destruct Hin|].
  destruct (fold_left_max_bounds l i) as [H1 H2].
  destruct Hin as [<- | Hin]; [lia|]. specialize (H2 _ Hin). lia.
Qed.

(** ** Access without a session *)

(** C4: every view behind [login_required] (list, add, edit, delete, logout),
    run without an authenticated session, answers with the redirect to the
    login view and the login message, and leaves the employee table (and the
    users and the session) as they were. *)
Theorem unauthenticated_redirects_to_login :
  forall (st : state) (req : request) (id : Z),
    is_authenticated st = false ->
    let denied := (Redirect ep_login, flash Unauthenticated "message" st) in
    index st = denied /\
    add_employee req st = denied /\
    update_employee id req st = denied /\
    delete_employee id st = denied /\
    logout st = denied /\
    employees (snd denied) = employees st /\
    users (snd denied) = users st /\
    session_user_id (snd denied) = session_user_id st.
Proof.
  intros st req id H. cbv zeta.
  unfold index, add_employee, update_employee, delete_employee, logout.
  rewrite !login_required_out by assumption.
  repeat split; reflexivity.
Qed.

Lemma unauthenticated_redirects_to_login_witness :
  is_authenticated (anonymous [ann; bob]) = false /\
  delete_employee 1 (anonymous [ann; bob]) =
    (Redirect ep_login,
     flash Unauthenticated "message" (anonymous [ann; bob])).
Proof.
  split; [reflexivity|].
  apply (unauthenticated_redirects_to_login
           (anonymous [ann; bob]) (post []) 1).
  reflexivity.
Defined.

(** ** Deleting a record *)

Lemma delete_row_split (e : Employee.t) (l1 l2 : list Employee.t) :
  unique_ids (l1 ++ e :: l2) ->
  delete_row e (l1 ++ e :: l2) = (l1 ++ l2)%list.
Proof.
  unfold unique_ids, delete_row. intros U.
  rewrite map_app in U. simpl in U.
  pose proof (NoDup_remove_2 _ _ _ U) as Hnot.
  assert (K : forall l, (forall x, In x l -> Employee.id x <> Employee.id e) ->
            filter (fun x => negb (Employee.id x =? Employee.id e)) l = l).
  { intros l Hl. apply forallb_filter_id. apply forallb_forall.
    intros x Hx. apply negb_true_iff, Z.eqb_neq. now apply Hl. }
  rewrite filter_app. simpl. rewrite Z.eqb_refl. simpl.
  rewrite !K; [reflexivity| |];
    intros x Hx Heq; apply Hnot; rewrite <- Heq; apply in_or_app;
    [right|left]; now apply in_map.
Qed.

(** C7: for a signed-in caller and a table with unique keys, deleting an id
    that no record carries answers 404 and changes nothing at all; deleting
    the id of a stored record succeeds and the table afterwards is the old
    one with exactly that record taken out, every other record kept as it
    was and in place (users and session are untouched as well). *)
Theorem delete_removes_exactly_that_record :
  forall (st : state) (id : Z),
    is_authenticated st = true ->
    unique_ids (employees st) ->
    ((forall e, In e (employees st) -> Employee.id e <> id) ->
       delete_employee id st = (Abort 404, st)) /\
    (forall e, In e (employees st) -> Employee.id e = id ->
       fst (delete_employee id st) = Redirect ep_index /\
       (exists l1 l2,
          employees st = (l1 ++ e :: l2)%list /\
          employees (snd (delete_employee id st)) = (l1 ++ l2)%list) /\
       (forall x, In x (employees (snd (delete_employee id st))) <->
                  In x (employees st) /\ Employee.id x <> id) /\
       users (snd (delete_employee id st)) = users st /\
       session_user_id (snd (delete_employee id st)) = session_user_id st).
Proof.
  intros st id A U. unfold delete_employee.
  rewrite login_required_in by assumption. split.
  - intros H. apply get_or_404_None in H. now rewrite H.
  - intros e Hin Hid. rewrite (get_or_404_In id _ e U Hin Hid). simpl.
    destruct (in_split _ _ Hin) as [l1 [l2 E]].
    repeat split; try reflexivity.
    + exists l1, l2. split; [assumption|].
      rewrite E in U |- *. now apply delete_row_split.
    + unfold delete_row in H. apply filter_In in H. tauto.
    + unfold delete_row in H. apply filter_In in H as [_ H].
      apply negb_true_iff, Z.eqb_neq in H. congruence.
    + intros [Hx Hne]. unfold delete_row. apply filter_In. split; auto.
      apply negb_true_iff, Z.eqb_neq. congruence.
Qed.

Lemma delete_removes_exactly_that_record_witness :
  is_authenticated (signed_in [ann; bob]) = true /\
  unique_ids [ann; bob] /\
  delete_employee 7 (signed_in [ann; bob]) =
    (Abort 404, signed_in [ann; bob]).
Proof.
  assert (U : unique_ids [ann; bob]).
  { unfold unique_ids. simpl.
    repeat constructor; simpl; intuition discriminate. }
  split; [reflexivity|]. split; [exact U|].
  apply (delete_removes_exactly_that_record (signed_in [ann; bob]) 7);
    [reflexivity | exact U |].
  simpl. intros e [<-|[<-|[]]]; simpl; discriminate.
Defined.

(** ** The views on a signed-in POST that gives name and email *)

Lemma add_employee_submitted st req name email :
  is_authenticated st = true ->
  submits req name email ->
  add_employee req st =
    match filter_by_email (Some email) (employees st) with
    | Some _ => add_fails DuplicateEmail_add st
    | None =>
        match read_salary (form_get (form req) "salary") with
        | None => add_fails InvalidNumber st
        | Some salary =>
            match form_get (form req) "position",
                  form_get (form req) "department" with
            | Some position, Some department =>
                (Redirect ep_index,
                 flash ("Employee " ++ name ++ " added successfully!")
                   "success"
                   (set_employees
                      (insert_row
                         (fun id => Employee.mk id name position
                                      (Some department) email (Some salary))
                         (employees st)) st))
            | _, _ => (Abort 400, st)
            end
        end
    end.
Proof.
  intros A (M & N & Nne & E & Ene). unfold add_employee, form_getitem.
  rewrite login_required_in by assumption.
  rewrite M, N, E, !truthy_Some by assumption. simpl orb. cbv iota.
  destruct (filter_by_email _ _); [reflexivity|].
  destruct (read_salary _); [|reflexivity].
  destruct (form_get (form req) "position"); [|reflexivity].
  destruct (form_get (form req) "department"); reflexivity.
Qed.

Lemma update_employee_submitted st id req name email employee :
  is_authenticated st = true ->
  get_or_404 id (employees st) = Some employee ->
  submits req name email ->
  update_employee id req st =
    if match filter_by_email (Some email) (employees st) with
       | Some e => negb (Employee.id e =? id)
       | None => false
       end
    then update_fails id DuplicateEmail_update st
    else
      match read_salary (form_get (form req) "salary") with
      | None => update_fails id InvalidNumber st
      | Some salary =>
          match form_get (form req) "position",
                form_get (form req) "department" with
          | Some position, Some department =>
              (Redirect ep_index,
               flash ("Employee " ++ name ++ " updated successfully!")
                 "success"
                 (set_employees
                    (update_row
                       (Employee.mk (Employee.id employee) name position
                          (Some department) email (Some salary))
                       (employees st)) st))
          | _, _ => (Abort 400, st)
          end
      end.
Proof.
  intros A G (M & N & Nne & E & Ene). unfold update_employee, form_getitem.
  rewrite login_required_in by assumption.
  rewrite G, M, N, E, !truthy_Some by assumption. simpl orb. cbv iota.
  destruct (match filter_by_email _ _ with Some _ => _ | None => _ end);
    [reflexivity|].
  destruct (read_salary _); [|reflexivity].
  destruct (form_get (form req) "position"); [|reflexivity].
  destruct (form_get (form req) "department"); reflexivity.
Qed.

(** With unique emails, the first holder of an email has another id exactly
    when some holder has. *)
Lemma duplicate_check_update id m tbl :
  unique_emails tbl ->
  match filter_by_email (Some m) tbl with
  | Some e => negb (Employee.id e =? id)
  | None => false
  end = true <-> email_taken_by_other id m tbl.
Proof.
  intros U. destruct (filter_by_email (Some m) tbl) as [x|] eqn:F.
  - apply filter_by_email_Some in F as [Hin Hx]. split.
    + intros H. apply negb_true_iff, Z.eqb_neq in H. now exists x.
    + intros [e (He & Hm & Hid)]. apply negb_true_iff, Z.eqb_neq.
      assert (x = e)
        by (apply (NoDup_map_eq Employee.email tbl);
            [exact U | assumption | assumption | congruence]).
      now subst.
  - split; [discriminate|].
    intros [e (He & Hm & _)]. apply filter_by_email_None in F.
    destruct F. now exists e.
Qed.

(** ** Form keys read by subscript *)

(** C10: a signed-in create or update request that passes the three checks
    (name and email given, email not a duplicate, salary readable) but whose
    form has no [position] key or no [department] key is not answered with a
    validation message: the subscript raises, the view aborts with status
    400, and the whole state (tables, session, flashed messages) is as it
    was. *)
Theorem missing_key_aborts_before_write :
  forall (st : state) (req : request) (name email : string)
         (salary : PyFloat.pyfloat),
    is_authenticated st = true ->
    submits req name email ->
    read_salary (form_get (form req) "salary") = Some salary ->
    form_get (form req) "position" = None \/
    form_get (form req) "department" = None ->
    (~ email_taken email (employees st) ->
       add_employee req st = (Abort 400, st)) /\
    (forall id employee,
       get_or_404 id (employees st) = Some employee ->
       unique_emails (employees st) ->
       ~ email_taken_by_other id email (employees st) ->
       update_employee id req st = (Abort 400, st)).
Proof.
  intros st req name email salary A Sub S K.
  split.
  - intros D. rewrite (add_employee_submitted st req name email A Sub), S.
    apply filter_by_email_None in D. rewrite D.
    destruct K as [-> | K]; [reflexivity|].
    rewrite K. now destruct (form_get (form req) "position").
  - intros id employee G U D.
    rewrite (update_employee_submitted st id req name email employee A G Sub).
    rewrite S.
    destruct (match filter_by_email _ _ with Some _ => _ | None => _ end)
      eqn:C.
    + apply (duplicate_check_update id email _ U) in C. contradiction.
    + destruct K as [-> | K]; [reflexivity|].
      rewrite K. now destruct (form_get (form req) "position").
Qed.

Lemma missing_key_aborts_before_write_witness :
  let req := post [("name", "Cy"); ("email", "cy@x.com");
                   ("position", "Eng")] in
  add_employee req (signed_in [ann; bob]) = (Abort 400, signed_in [ann; bob]).
Proof.
  intros req.
  apply (missing_key_aborts_before_write
           (signed_in [ann; bob]) req "Cy" "cy@x.com" PyFloat.zero).
  - reflexivity.
  - repeat split; discriminate.
  - reflexivity.
  - right. reflexivity.
  - intros [e [[<-|[<-|[]]] H]]; discriminate.
Defined.

(** ** Telling results apart *)

Lemma add_fails_inj m1 m2 st : add_fails m1 st = add_fails m2 st -> m1 = m2.
Proof.
  unfold add_fails, flash. intros H. injection H as H.
  apply app_inj_tail in H as [_ H]. congruence.
Qed.

Lemma update_fails_inj id m1 m2 st :
  update_fails id m1 st = update_fails id m2 st -> m1 = m2.
Proof.
  unfold update_fails, flash. intros H. injection H as H.
  apply app_inj_tail in H as [_ H]. congruence.
Qed.

(** Closes a goal from an equation [H] between two different results. *)
Ltac differs H :=
  exfalso;
  solve [ discriminate H
        | apply add_fails_inj in H; discriminate H
        | apply update_fails_inj in H; discriminate H ].

(** ** Duplicate emails *)

(** C1: on a signed-in POST that gives a name and an email, creation fails
    with the duplicate-email message exactly when some stored employee holds
    the submitted email; an update of employee [id] (over a table with unique
    emails) fails with the duplicate-email message exactly when an employee
    with another id holds the submitted email, so an update that keeps the
    record's own email never fails the duplicate check. *)
Theorem duplicate_email_excludes_self :
  forall (st : state) (req : request) (name email : string),
    is_authenticated st = true ->
    submits req name email ->
    (add_employee req st = add_fails DuplicateEmail_add st <->
     email_taken email (employees st)) /\
    (forall id employee,
       get_or_404 id (employees st) = Some employee ->
       unique_emails (employees st) ->
       (update_employee id req st = update_fails id DuplicateEmail_update st
        <-> email_taken_by_other id email (employees st)) /\
       (Employee.email employee = email ->
        update_employee id req st <>
          update_fails id DuplicateEmail_update st)).
Proof.
  intros st req name email A Sub. split.
  - rewrite (add_employee_submitted st req name email A Sub).
    destruct (filter_by_email (Some email) (employees st)) as [x|] eqn:F.
    + apply filter_by_email_Some in F as [Hin Hx].
      split; [intros _; now exists x | reflexivity].
    + apply filter_by_email_None in F. split; [|contradiction].
      intros H.
      destruct (read_salary _); [|differs H].
      destruct (form_get (form req) "position"); [|differs H].
      destruct (form_get (form req) "department"); differs H.
  - intros id employee G U.
    pose proof (duplicate_check_update id email _ U) as C.
    assert (I : update_employee id req st =
                  update_fails id DuplicateEmail_update st
                <-> email_taken_by_other id email (employees st)).
    { rewrite (update_employee_submitted st id req name email employee A G
                 Sub).
      rewrite <- C.
      destruct (match filter_by_email _ _ with Some _ => _ | None => _ end).
      - split; reflexivity.
      - split; [|discriminate]. intros H.
        destruct (read_salary _); [|differs H].
        destruct (form_get (form req) "position"); [|differs H].
        destruct (form_get (form req) "department"); differs H. }
    split; [exact I|].
    intros Own H. apply I in H. destruct H as [e (He & Hm & Hid)].
    apply get_or_404_Some in G as [Hin Hemp]. apply Hid.
    assert (e = employee)
      by (apply (NoDup_map_eq Employee.email (employees st));
          [exact U | assumption | assumption | congruence]).
    now subst.
Qed.

Lemma duplicate_email_excludes_self_witness :
  let req := post [("name", "Ann"); ("email", "ann@x.com")] in
  add_employee req (signed_in [ann; bob]) =
    add_fails DuplicateEmail_add (signed_in [ann; bob]).
Proof.
  intros req.
  apply (duplicate_email_excludes_self
           (signed_in [ann; bob]) req "Ann" "ann@x.com").
  - reflexivity.
  - repeat split; discriminate.
  - exists ann. split; [now left | reflexivity].
Defined.

(** ** Required fields *)

Lemma truthy_false (v : option string) :
  truthy v = false <-> v = None \/ v = Some "".
Proof.
  destruct v as [s|]; simpl.
  - destruct (String.eqb_spec s ""); subst; simpl.
    + split; auto.
    + split; [discriminate|]. intros [H|H]; congruence.
  - split; auto.
Qed.

(** C2, as the code has it: a name of blanks only is not missing.  The
    signed-in create request below, whose name is three spaces, is not
    answered with the required-fields message; the record is stored under
    that name. *)
Lemma blank_name_is_accepted :
  let req := post [("name", "   "); ("email", "ann@x.com");
                   ("position", "Eng"); ("department", "R&D");
                   ("salary", "")] in
  add_employee req (signed_in []) <>
    add_fails MissingRequiredField (signed_in []) /\
  employees (snd (add_employee req (signed_in []))) =
    [Employee.mk 1 "   " "Eng" (Some "R&D") "ann@x.com" (Some PyFloat.zero)].
Proof.
  split; [discriminate | reflexivity].
Qed.

(** C2, amended: on a signed-in POST, creation and update (of a stored id)
    both fail with the one required-fields message, which names both fields,
    exactly when the name or the email is absent or the empty text; nothing
    is trimmed, so any other text, blanks included, passes this check.  The
    rule is the same on create and on update. *)
Theorem required_fields_checked_untrimmed :
  forall (st : state) (req : request),
    is_authenticated st = true ->
    method req = POST ->
    let name := form_get (form req) "name" in
    let email := form_get (form req) "email" in
    let missing :=
      (name = None \/ name = Some "") \/ (email = None \/ email = Some "") in
    (add_employee req st = add_fails MissingRequiredField st <-> missing) /\
    (forall id employee,
       get_or_404 id (employees st) = Some employee ->
       (update_employee id req st = update_fails id MissingRequiredField st
        <-> missing)).
Proof.
  intros st req A M name email missing.
  assert (Dec : missing \/
                exists n m, submits req n m).
  { subst missing. destruct (truthy name) eqn:Tn.
    - destruct (truthy email) eqn:Te.
      + right. apply truthy_text in Tn as [n [Hn Hne]].
        apply truthy_text in Te as [m [Hm Hme]].
        exists n, m. unfold submits. auto.
      + left. right. now apply truthy_false.
    - left. left. now apply truthy_false. }
  assert (Miss : missing ->
                 negb (truthy name) || negb (truthy email) = true).
  { intros [H|H]; apply truthy_false in H; rewrite H; simpl;
      [reflexivity | apply orb_true_r]. }
  assert (No : forall n m, submits req n m -> ~ missing).
  { intros n m (_ & N & Nne & E & Ene) [[H|H]|[H|H]];
      subst name email; congruence. }
  split.
  - destruct Dec as [Hm | [n [m Sub]]].
    + split; [auto|]. intros _. unfold add_employee.
      rewrite login_required_in, M by assumption.
      fold name email. now rewrite (Miss Hm).
    + split; [|intros H; now destruct (No n m Sub)].
      rewrite (add_employee_submitted st req n m A Sub). intros H.
      destruct (filter_by_email _ _); [differs H|].
      destruct (read_salary _); [|differs H].
      destruct (form_get (form req) "position"); [|differs H].
      destruct (form_get (form req) "department"); differs H.
  - intros id employee G. destruct Dec as [Hm | [n [m Sub]]].
    + split; [auto|]. intros _. unfold update_employee.
      rewrite login_required_in, G, M by assumption.
      fold name email. now rewrite (Miss Hm).
    + split; [|intros H; now destruct (No n m Sub)].
      rewrite (update_employee_submitted st id req n m employee A G Sub).
      intros H.
      destruct (match filter_by_email _ _ with Some _ => _ | None => _ end);
        [differs H|].
      destruct (read_salary _); [|differs H].
      destruct (form_get (form req) "position"); [|differs H].
      destruct (form_get (form req) "department"); differs H.
Qed.

Lemma required_fields_checked_untrimmed_witness :
  let req := post [("name", ""); ("email", "ann@x.com")] in
  add_employee req (signed_in []) =
    add_fails MissingRequiredField (signed_in []).
Proof.
  intros req.
  apply (required_fields_checked_untrimmed (signed_in []) req);
    [reflexivity | reflexivity |].
  left. right. reflexivity.
Defined.

(** ** What a successful write stores *)

Lemma get_or_404_update_row row tbl old :
  get_or_404 (Employee.id row) tbl = Some old ->
  get_or_404 (Employee.id row) (update_row row tbl) = Some (committed row).
Proof.
  unfold get_or_404, update_row.
  induction tbl as [|x tbl IH]; simpl; [discriminate|].
  destruct (Employee.id x =? Employee.id row) eqn:E.
  - intros _. simpl. now rewrite Z.eqb_refl.
  - rewrite E. exact IH.
Qed.

Lemma update_row_others row tbl x :
  In x tbl -> Employee.id x <> Employee.id row -> In x (update_row row tbl).
Proof.
  intros Hin Hne. unfold update_row. apply in_map_iff. exists x.
  split; [|assumption]. apply Z.eqb_neq in Hne. now rewrite Hne.
Qed.

Lemma update_row_ids row tbl :
  map Employee.id (update_row row tbl) = map Employee.id tbl.
Proof.
  unfold update_row. rewrite map_map. apply map_ext. intros x.
  destruct (Employee.id x =? Employee.id row) eqn:E; [|reflexivity].
  apply Z.eqb_eq in E. simpl. congruence.
Qed.

(** C9, as the code has it: the position is stored as submitted, with no
    check that it is non-empty.  The signed-in create request below has an
    empty position and the record is stored with the empty position; the
    update does the same to a stored record. *)
Lemma empty_position_is_stored :
  let fields := [("name", "Ann"); ("email", "ann@x.com"); ("position", "");
                 ("department", "R&D"); ("salary", "50000")] in
  add_employee (post fields) (signed_in []) =
    (Redirect ep_index,
     flash "Employee Ann added successfully!" "success"
       (signed_in [Employee.set_position ann ""])) /\
  update_employee 1 (post fields) (signed_in [ann; bob]) =
    (Redirect ep_index,
     flash "Employee Ann updated successfully!" "success"
       (signed_in [Employee.set_position ann ""; bob])) /\
  Employee.position (Employee.set_position ann "") = "".
Proof.
  repeat split; reflexivity.
Qed.

(** C9, amended: the form must carry a [position] key, but its text is not
    checked.  On a signed-in create or update request that passes the checks
    and carries the [position] and [department] keys, the stored record has
    exactly the submitted position, whatever it is, the empty text
    included. *)
Theorem position_stored_as_submitted :
  forall (st : state) (req : request) (name email position department : string)
         (salary : PyFloat.pyfloat),
    is_authenticated st = true ->
    submits req name email ->
    read_salary (form_get (form req) "salary") = Some salary ->
    form_get (form req) "position" = Some position ->
    form_get (form req) "department" = Some department ->
    (~ email_taken email (employees st) ->
       exists new,
         employees (snd (add_employee req st)) = (employees st ++ [new])%list
         /\ Employee.position new = position) /\
    (forall id employee,
       get_or_404 id (employees st) = Some employee ->
       unique_emails (employees st) ->
       ~ email_taken_by_other id email (employees st) ->
       exists new,
         get_or_404 id (employees (snd (update_employee id req st))) =
           Some new
         /\ Employee.position new = position).
Proof.
  intros st req name email position department salary A Sub S P D. split.
  - intros T. rewrite (add_employee_submitted st req name email A Sub).
    apply filter_by_email_None in T. rewrite T, S, P, D. simpl.
    eexists. split; reflexivity.
  - intros id employee G U T.
    rewrite (update_employee_submitted st id req name email employee A G Sub).
    destruct (match filter_by_email _ _ with Some _ => _ | None => _ end)
      eqn:C.
    + apply (duplicate_check_update id email _ U) in C. contradiction.
    + rewrite S, P, D. simpl.
      pose proof (get_or_404_Some _ _ _ G) as [_ Hid].
      eexists. split.
      * rewrite <- Hid in G |- *.
        apply (get_or_404_update_row
                 (Employee.mk (Employee.id employee) name position
                    (Some department) email (Some salary)) _ employee).
        exact G.
      * reflexivity.
Qed.

Lemma position_stored_as_submitted_witness :
  let req := post [("name", "Cy"); ("email", "cy@x.com"); ("position", "");
                   ("department", "Ops")] in
  exists new,
    employees (snd (add_employee req (signed_in [ann; bob]))) =
      ([ann; bob] ++ [new])%list /\
    Employee.position new = "".
Proof.
  intros req.
  apply (position_stored_as_submitted
           (signed_in [ann; bob]) req "Cy" "cy@x.com" "" "Ops" PyFloat.zero).
  - reflexivity.
  - repeat split; discriminate.
  - reflexivity.
  - reflexivity.
  - reflexivity.
  - intros [e [[<-|[<-|[]]] H]]; discriminate.
Defined.

(** ** Reading the salary *)

Lemma same_letters_nil (w : string) : same_letters w "" -> w = "".
Proof.
  unfold same_letters. simpl. intros H. inversion H as [E|].
  destruct w; [reflexivity | discriminate].
Qed.

Lemma same_letters_cons (w : string) (p : ascii) (rest : string) :
  same_letters w (String p rest) ->
  exists c w',
    w = String c w' /\
    (c = p \/ c = ascii_of_nat (nat_of_ascii p - 32)) /\
    same_letters w' rest.
Proof.
  unfold same_letters. simpl. intros H.
  destruct w as [|c w']; simpl in H; inversion H as [|? ? ? ? Hc Hr]; subst.
  exists c, w'. split; [reflexivity|]. split; [|exact Hr].
  destruct Hc as [-> | Hc]; [now left|]. right.
  rewrite <- (ascii_nat_embedding c). f_equal.
  rewrite <- Hc. now rewrite Nat.add_sub.
Qed.

(** Splits [H : same_letters w pattern] into every spelling of [w]. *)
Ltac spellings H :=
  repeat (apply same_letters_cons in H as (? & ? & -> & [-> | ->] & H));
  apply same_letters_nil in H; subst.

Lemma float_inf_nan (sign w : string) :
  sign = "" \/ sign = "+" \/ sign = "-" ->
  (same_letters w "inf" \/ same_letters w "infinity" ->
   PyFloat.float (sign ++ w) = Some (S754_infinity (String.eqb sign "-"))) /\
  (same_letters w "nan" -> PyFloat.float (sign ++ w) = Some S754_nan).
Proof.
  intros S. split.
  - intros [H | H]; spellings H;
      destruct S as [-> | [-> | ->]]; vm_compute; reflexivity.
  - intros H; spellings H;
      destruct S as [-> | [-> | ->]]; vm_compute; reflexivity.
Qed.

(** C3, as the code has it: [float] reads more than finite decimal numbers.
    The salary text [inf] is not a finite decimal number, yet the signed-in
    create and update requests below are not answered with the
    invalid-number message: the record is stored with an infinite salary.
    The text [nan] is read as well. *)
Lemma infinite_salary_is_accepted :
  let fields := [("name", "Ann"); ("email", "ann@x.com"); ("position", "Eng");
                 ("department", "R&D"); ("salary", "inf")] in
  add_employee (post fields) (signed_in []) <>
    add_fails InvalidNumber (signed_in []) /\
  employees (snd (add_employee (post fields) (signed_in []))) =
    [Employee.set_salary ann (Some (S754_infinity false))] /\
  employees (snd (update_employee 1 (post fields) (signed_in [ann; bob]))) =
    [Employee.set_salary ann (Some (S754_infinity false)); bob] /\
  read_salary (Some "nan") = Some S754_nan.
Proof.
  repeat split; [discriminate | reflexivity ..].
Qed.

(** C3, amended: an absent or empty salary input gives [0.0]; any other
    input is read by [float]: the text 1234.5 gives the float that is exactly
    12345/10; the texts inf, infinity and nan, in any letter case and with
    an optional sign, give the infinity of that sign and nan; a text that
    [float] rejects (such as abc) makes a signed-in create or update answer
    with the invalid-number message, which names the salary, the employee
    table being left as it was.  A value that [float] returns is stored as
    the column keeps it: an infinity or a finite number as it is, a zero
    without its sign, and nan as no salary at all. *)
Theorem salary_read_by_float :
  forall (st : state) (req : request) (name email : string),
    is_authenticated st = true ->
    submits req name email ->
    let input := form_get (form req) "salary" in
    let kept := fun x : PyFloat.pyfloat =>
      match x with
      | S754_nan => None
      | S754_zero _ => Some (S754_zero false)
      | _ => Some x
      end in
    (input = None \/ input = Some "" -> read_salary input = Some PyFloat.zero)
    /\
    (input = Some "1234.5" ->
       exists x, read_salary input = Some x /\ PyFloat.is_ratio x 12345 10)
    /\
    (input = Some "abc" -> read_salary input = None)
    /\
    (forall sign w,
       sign = "" \/ sign = "+" \/ sign = "-" ->
       input = Some (sign ++ w) ->
       (same_letters w "inf" \/ same_letters w "infinity" ->
        read_salary input = Some (S754_infinity (String.eqb sign "-"))) /\
       (same_letters w "nan" -> read_salary input = Some S754_nan))
    /\
    (read_salary input = None ->
       (~ email_taken email (employees st) ->
          fst (add_employee req st) = Redirect ep_add_employee /\
          flashes (snd (add_employee req st)) =
            (flashes st ++ [("danger", InvalidNumber)])%list /\
          employees (snd (add_employee req st)) = employees st) /\
       (forall id employee,
          get_or_404 id (employees st) = Some employee ->
          unique_emails (employees st) ->
          ~ email_taken_by_other id email (employees st) ->
          fst (update_employee id req st) = Redirect (ep_update_employee id) /\
          flashes (snd (update_employee id req st)) =
            (flashes st ++ [("danger", InvalidNumber)])%list /\
          employees (snd (update_employee id req st)) = employees st))
    /\
    (forall x position department,
       read_salary input = Some x ->
       form_get (form req) "position" = Some position ->
       form_get (form req) "department" = Some department ->
       (~ email_taken email (employees st) ->
          exists new,
            employees (snd (add_employee req st)) =
              (employees st ++ [new])%list /\
            Employee.salary new = kept x) /\
       (forall id employee,
          get_or_404 id (employees st) = Some employee ->
          unique_emails (employees st) ->
          ~ email_taken_by_other id email (employees st) ->
          exists new,
            get_or_404 id (employees (snd (update_employee id req st))) =
              Some new /\
            Employee.salary new = kept x)).
Proof.
  intros st req name email A Sub input kept.
  assert (Upd : forall id employee,
            get_or_404 id (employees st) = Some employee ->
            unique_emails (employees st) ->
            ~ email_taken_by_other id email (employees st) ->
            match filter_by_email (Some email) (employees st) with
            | Some e => negb (Employee.id e =? id)
            | None => false
            end = false).
  { intros id employee G U T.
    destruct (match filter_by_email _ _ with Some _ => _ | None => _ end)
      eqn:C; [|reflexivity].
    apply (duplicate_check_update id email _ U) in C. contradiction. }
  assert (Kept : forall x, real_column (Some x) = kept x)
    by (intros x; now destruct x).
  split; [intros [-> | ->]; reflexivity|].
  split; [intros ->; eexists; split; [vm_compute|]; reflexivity|].
  split; [intros ->; reflexivity|].
  split.
  { intros sign w S ->.
    assert (T : truthy (Some (sign ++ w)) = true \/ w = "").
    { destruct w; [now right|]. left.
      destruct S as [-> | [-> | ->]]; reflexivity. }
    destruct (float_inf_nan sign w S) as [I N]. split.
    - intros H. destruct T as [T | ->].
      + unfold read_salary. rewrite T. now apply I.
      + destruct H as [H | H]; inversion H.
    - intros H. destruct T as [T | ->].
      + unfold read_salary. rewrite T. now apply N.
      + inversion H. }
  split.
  - intros R. split.
    + intros T. rewrite (add_employee_submitted st req name email A Sub).
      apply filter_by_email_None in T. rewrite T. fold input. rewrite R.
      repeat split.
    + intros id employee G U T.
      rewrite
        (update_employee_submitted st id req name email employee A G Sub).
      rewrite (Upd id employee) by assumption. fold input. rewrite R.
      repeat split.
  - intros x position department R P D. split.
    + intros T. rewrite (add_employee_submitted st req name email A Sub).
      apply filter_by_email_None in T. rewrite T. fold input.
      rewrite R, P, D. simpl. unfold insert_row. eexists.
      split; [reflexivity|]. simpl. apply Kept.
    + intros id employee G U T.
      rewrite
        (update_employee_submitted st id req name email employee A G Sub).
      rewrite (Upd id employee) by assumption. fold input.
      rewrite R, P, D. simpl.
      pose proof (get_or_404_Some _ _ _ G) as [_ Hid].
      eexists. split.
      * rewrite <- Hid in G |- *.
        apply (get_or_404_update_row
                 (Employee.mk (Employee.id employee) name position
                    (Some department) email (Some x)) _ employee).
        exact G.
      * simpl. apply Kept.
Qed.

Lemma salary_read_by_float_witness :
  let req := post [("name", "Cy"); ("email", "cy@x.com"); ("salary", "abc")] in
  employees (snd (add_employee req (signed_in [ann; bob]))) = [ann; bob].
Proof.
  intros req.
  pose proof (salary_read_by_float (signed_in [ann; bob]) req "Cy" "cy@x.com"
                eq_refl) as H.
  apply H.
  - repeat split; discriminate.
  - reflexivity.
  - intros [e [[<-|[<-|[]]] K]]; discriminate.
Defined.

(** ** Signing in *)

Lemma user_filter_by_username_Some n tbl u :
  user_filter_by_username (Some n) tbl = Some u ->
  In u tbl /\ User.username u = n.
Proof.
  simpl. intros H. apply find_some in H as [Hin Heq].
  split; [assumption | now apply String.eqb_eq].
Qed.

Lemma user_filter_by_username_None n tbl :
  user_filter_by_username (Some n) tbl = None ->
  forall u, In u tbl -> User.username u <> n.
Proof.
  simpl. intros H u Hin. pose proof (find_none _ _ H u Hin) as F.
  simpl in F. now apply String.eqb_neq.
Qed.

(** C8, where the code departs from it: an anonymous POST to the login view
    that carries a username and no password field.  For a stored username
    the hash check is run on no password and raises: the answer is status
    500 and nothing is flashed.  For a username that is not stored the
    answer is the login page with the login-failed message.  The two
    answers differ, so such a request tells whether a username is stored. *)
Theorem login_without_password_reveals_username :
  forall (check : string -> string -> bool) (st : state) (req : request)
         (username : string),
    is_authenticated st = false ->
    method req = POST ->
    form_get (form req) "username" = Some username ->
    form_get (form req) "password" = None ->
    ((exists u, In u (users st) /\ User.username u = username) ->
       login check req st = (Abort 500, st)) /\
    ((forall u, In u (users st) -> User.username u <> username) ->
       fst (login check req st) = Render "login.html" [] /\
       flashes (snd (login check req st)) =
         (flashes st ++ [("danger", InvalidCredentials)])%list).
Proof.
  intros check st req username A M Hu Hp. unfold login.
  rewrite A, M, Hu, Hp. split.
  - intros [u [Hin Hn]].
    destruct (user_filter_by_username (Some username) (users st)) eqn:F;
      [reflexivity|].
    now destruct (user_filter_by_username_None _ _ F u Hin).
  - intros Unknown.
    destruct (user_filter_by_username (Some username) (users st)) as [u|]
      eqn:F; [|split; reflexivity].
    apply user_filter_by_username_Some in F as [Hin Hn].
    now destruct (Unknown u Hin).
Qed.

Lemma login_without_password_reveals_username_witness :
  login toy_check (post [("username", "admin")]) (anonymous []) =
    (Abort 500, anonymous []) /\
  fst (login toy_check (post [("username", "eve")]) (anonymous [])) =
    Render "login.html" [].
Proof.
  split.
  - apply (login_without_password_reveals_username toy_check (anonymous [])
             (post [("username", "admin")]) "admin");
      try reflexivity.
    exists admin. split; [now left | reflexivity].
  - apply (login_without_password_reveals_username toy_check (anonymous [])
             (post [("username", "eve")]) "eve");
      try reflexivity.
    simpl. intros u [<- | []]. discriminate.
Defined.

(** X19: an anonymous POST to the login view that carries a username and a
    password (usernames being unique) signs in exactly when a stored user
    has that username and the password verifies against the stored hash:
    the session then holds that user's id.  Otherwise the session and the
    tables are as before and the answer is the login page with the one
    login-failed message, the same whether the username is unknown or the
    password wrong. *)
Theorem login_with_password_given :
  forall (check : string -> string -> bool) (st : state),
    is_authenticated st = false ->
    unique_usernames (users st) ->
    let failed :=
      (Render "login.html" [],
       mk_state (users st) (employees st) (session_user_id st)
         (flashes st ++ [("danger", InvalidCredentials)])) in
    (forall req username password,
       credentials req username password ->
       (verifies check (users st) username password ->
        exists u, In u (users st) /\ User.username u = username /\
          fst (login check req st) = Redirect ep_index /\
          session_user_id (snd (login check req st)) = Some (User.id u) /\
          flashes (snd (login check req st)) =
            (flashes st ++ [("success", "Login successful!")])%list) /\
       (~ verifies check (users st) username password ->
        login check req st = failed)) /\
    (forall req1 username1 password1 req2 username2 password2,
       credentials req1 username1 password1 ->
       credentials req2 username2 password2 ->
       (forall u, In u (users st) -> User.username u <> username1) ->
       (exists u, In u (users st) /\ User.username u = username2 /\
                  check (User.password_hash u) password2 = false) ->
       login check req1 st = failed /\ login check req2 st = failed).
Proof.
  intros check st A U failed.
  assert (Step : forall req username password,
            credentials req username password ->
            (verifies check (users st) username password ->
             exists u, In u (users st) /\ User.username u = username /\
               fst (login check req st) = Redirect ep_index /\
               session_user_id (snd (login check req st)) =
                 Some (User.id u) /\
               flashes (snd (login check req st)) =
                 (flashes st ++ [("success", "Login successful!")])%list) /\
            (~ verifies check (users st) username password ->
             login check req st = failed)).
  { intros req username password (M & Hu & Hp). unfold login.
    rewrite A, M, Hu, Hp.
    destruct (user_filter_by_username (Some username) (users st)) as [u|]
      eqn:F.
    - apply user_filter_by_username_Some in F as [Hin Hn]. simpl.
      destruct (check (User.password_hash u) password) eqn:C.
      + split; [|intros V; destruct V; now exists u].
        intros _. exists u. repeat split; assumption.
      + split; [|reflexivity].
        intros [v (Hv & Hvn & Hc)].
        assert (v = u)
          by (apply (NoDup_map_eq User.username (users st));
              [exact U | assumption | assumption | congruence]).
        subst. congruence.
    - split; [|reflexivity].
      intros [v (Hv & Hvn & _)].
      now destruct (user_filter_by_username_None _ _ F v Hv). }
  split; [exact Step|].
  intros req1 u1 p1 req2 u2 p2 C1 C2 Unknown [u (Hin & Hn & Wrong)]. split.
  - apply (Step req1 u1 p1 C1). intros [v (Hv & Hvn & _)].
    now destruct (Unknown v Hv).
  - apply (Step req2 u2 p2 C2). intros [v (Hv & Hvn & Hc)].
    assert (v = u)
      by (apply (NoDup_map_eq User.username (users st));
          [exact U | assumption | assumption | congruence]).
    subst. congruence.
Qed.

Lemma login_with_password_given_witness :
  let wrong := post [("username", "admin"); ("password", "wrong")] in
  login toy_check wrong (anonymous [ann]) =
    (Render "login.html" [],
     mk_state [admin] [ann] None [("danger", InvalidCredentials)]).
Proof.
  intros wrong.
  assert (U : unique_usernames (users (anonymous [ann]))).
  { unfold unique_usernames. simpl. repeat constructor. simpl. tauto. }
  apply (proj1 (login_with_password_given toy_check (anonymous [ann])
                  eq_refl U) wrong "admin" "wrong").
  - repeat split.
  - intros [u ([<- | []] & _ & C)]. discriminate C.
Defined.

(** ** Validation either fails and writes nothing, or succeeds and writes
       the whole record *)

Lemma submits_or_missing (req : request) :
  method req = POST ->
  (truthy (form_get (form req) "name") = false \/
   truthy (form_get (form req) "email") = false) \/
  (exists n m, submits req n m).
Proof.
  intros M.
  destruct (truthy (form_get (form req) "name")) eqn:Tn; [|auto].
  destruct (truthy (form_get (form req) "email")) eqn:Te; [|auto].
  right. apply truthy_text in Tn as [n [Hn Hne]].
  apply truthy_text in Te as [m [Hm Hme]].
  exists n, m. unfold submits. auto.
Qed.

(** C5: on a signed-in POST, when a validation check fails (name or email
    missing, email a duplicate, salary not readable) creation and update
    send the caller back to the form with one of the three field messages
    flashed, and the employee table, the users and the session are the same
    as before; when all checks pass and the form is complete, the answer is
    the redirect to the list with a success message, creation has appended
    the record built from all submitted fields under a key not in use
    before, and update has rewritten all fields of the record with that id,
    keeping its id and every other record.  The salary is stored as the
    column keeps it (a zero without sign, nan as no salary). *)
Theorem validation_is_atomic :
  forall (st : state) (req : request),
    is_authenticated st = true ->
    method req = POST ->
    let missing :=
      truthy (form_get (form req) "name") = false \/
      truthy (form_get (form req) "email") = false in
    let unreadable := read_salary (form_get (form req) "salary") = None in
    let messages_add :=
      [MissingRequiredField; DuplicateEmail_add; InvalidNumber] in
    let messages_update :=
      [MissingRequiredField; DuplicateEmail_update; InvalidNumber] in
    let kept := fun x : PyFloat.pyfloat =>
      match x with
      | S754_nan => None
      | S754_zero _ => Some (S754_zero false)
      | _ => Some x
      end in
    (missing \/
     (exists m, form_get (form req) "email" = Some m /\
                email_taken m (employees st)) \/
     unreadable ->
     exists msg,
       In msg messages_add /\
       fst (add_employee req st) = Redirect ep_add_employee /\
       flashes (snd (add_employee req st)) =
         (flashes st ++ [("danger", msg)])%list /\
       employees (snd (add_employee req st)) = employees st /\
       users (snd (add_employee req st)) = users st /\
       session_user_id (snd (add_employee req st)) = session_user_id st) /\
    (forall name email salary position department,
       submits req name email ->
       ~ email_taken email (employees st) ->
       read_salary (form_get (form req) "salary") = Some salary ->
       form_get (form req) "position" = Some position ->
       form_get (form req) "department" = Some department ->
       fst (add_employee req st) = Redirect ep_index /\
       flashes (snd (add_employee req st)) =
         (flashes st ++
          [("success",
            ("Employee " ++ name ++ " added successfully!")%string)])%list
       /\
       exists key,
         (forall e, In e (employees st) -> Employee.id e <> key) /\
         employees (snd (add_employee req st)) =
           (employees st ++
            [Employee.mk key name position (Some department) email
               (kept salary)])%list) /\
    (forall id employee,
       get_or_404 id (employees st) = Some employee ->
       unique_emails (employees st) ->
       (missing \/
        (exists m, form_get (form req) "email" = Some m /\
                   email_taken_by_other id m (employees st)) \/
        unreadable ->
        exists msg,
          In msg messages_update /\
          fst (update_employee id req st) = Redirect (ep_update_employee id)
          /\
          flashes (snd (update_employee id req st)) =
            (flashes st ++ [("danger", msg)])%list /\
          employees (snd (update_employee id req st)) = employees st /\
          users (snd (update_employee id req st)) = users st /\
          session_user_id (snd (update_employee id req st)) =
            session_user_id st) /\
       (forall name email salary position department,
          submits req name email ->
          ~ email_taken_by_other id email (employees st) ->
          read_salary (form_get (form req) "salary") = Some salary ->
          form_get (form req) "position" = Some position ->
          form_get (form req) "department" = Some department ->
          let updated :=
            Employee.mk id name position (Some department) email
              (kept salary) in
          fst (update_employee id req st) = Redirect ep_index /\
          flashes (snd (update_employee id req st)) =
            (flashes st ++
             [("success",
               ("Employee " ++ name ++ " updated successfully!")%string)])%list
          /\
          employees (snd (update_employee id req st)) =
            map (fun e => if Employee.id e =? id then updated else e)
                (employees st) /\
          get_or_404 id (employees (snd (update_employee id req st))) =
            Some updated /\
          (forall e, In e (employees st) -> Employee.id e <> id ->
                     In e (employees (snd (update_employee id req st)))))).
Proof.
  intros st req A M missing unreadable messages_add messages_update kept.
  assert (Kept : forall x, real_column (Some x) = kept x)
    by (intros x; now destruct x).
  split; [|split].
  - intros Fail.
    destruct (submits_or_missing req M) as [Mi | [n [m Sub]]].
    + exists MissingRequiredField. split; [now left|].
      unfold add_employee. rewrite login_required_in, M by assumption.
      destruct Mi as [-> | ->]; simpl; [repeat split|].
      rewrite orb_true_r. repeat split.
    + rewrite (add_employee_submitted st req n m A Sub).
      destruct (filter_by_email (Some m) (employees st)) eqn:F.
      * exists DuplicateEmail_add.
        split; [right; now left | repeat split].
      * destruct (read_salary (form_get (form req) "salary")) eqn:R.
        -- exfalso. destruct Sub as (_ & N & Nne & E & Ene).
           destruct Fail as [[H | H] | [[m' [Hm T]] | H]].
           ++ subst missing. rewrite N, truthy_Some in H by assumption.
              discriminate.
           ++ rewrite E, truthy_Some in H by assumption. discriminate.
           ++ apply filter_by_email_None in F. apply F.
              rewrite E in Hm. injection Hm as <-. exact T.
           ++ unfold unreadable in H. congruence.
        -- exists InvalidNumber.
           split; [right; right; now left | repeat split].
  - intros name email salary position department Sub T R P D.
    rewrite (add_employee_submitted st req name email A Sub).
    apply filter_by_email_None in T. rewrite T, R, P, D. simpl.
    split; [reflexivity|]. split; [reflexivity|].
    exists (next_id (employees st)). split.
    + intros e Hin Heq. pose proof (next_id_fresh _ _ Hin). lia.
    + unfold insert_row, committed. simpl. now destruct salary.
  - intros id employee G U. split.
    + intros Fail.
      destruct (submits_or_missing req M) as [Mi | [n [m Sub]]].
      * exists MissingRequiredField. split; [now left|].
        unfold update_employee.
        rewrite login_required_in, G, M by assumption.
        destruct Mi as [-> | ->]; simpl; [repeat split|].
        rewrite orb_true_r. repeat split.
      * rewrite (update_employee_submitted st id req n m employee A G Sub).
        destruct (match filter_by_email _ _ with Some _ => _ | None => _ end)
          eqn:C.
        -- exists DuplicateEmail_update.
           split; [right; now left | repeat split].
        -- destruct (read_salary (form_get (form req) "salary")) eqn:R.
           ++ exfalso. destruct Sub as (_ & N & Nne & E & Ene).
              destruct Fail as [[H | H] | [[m' [Hm T]] | H]].
              ** rewrite N, truthy_Some in H by assumption. discriminate.
              ** rewrite E, truthy_Some in H by assumption. discriminate.
              ** rewrite E in Hm. injection Hm as <-.
                 apply (duplicate_check_update id m _ U) in T. congruence.
              ** unfold unreadable in H. congruence.
           ++ exists InvalidNumber.
              split; [right; right; now left | repeat split].
    + intros name email salary position department Sub T R P D updated.
      pose proof (get_or_404_Some _ _ _ G) as [_ Hid].
      rewrite
        (update_employee_submitted st id req name email employee A G Sub).
      destruct (match filter_by_email _ _ with Some _ => _ | None => _ end)
        eqn:C.
      { apply (duplicate_check_update id email _ U) in C. contradiction. }
      rewrite R, P, D, Hid. simpl.
      set (row := Employee.mk id name position (Some department) email
                    (Some salary)).
      assert (Row : committed row = updated)
        by (unfold committed, updated; simpl; now destruct salary).
      split; [reflexivity|]. split; [reflexivity|]. split; [|split].
      * unfold update_row. now rewrite Row.
      * rewrite <- Row.
        apply (get_or_404_update_row row _ employee). exact G.
      * intros e Hin Hne. now apply update_row_others.
Qed.

Lemma validation_is_atomic_witness :
  let req := post [("name", "Cy"); ("email", "ann@x.com");
                   ("position", "Eng"); ("department", "Ops")] in
  exists msg,
    In msg [MissingRequiredField; DuplicateEmail_add; InvalidNumber] /\
    fst (add_employee req (signed_in [ann; bob])) =
      Redirect ep_add_employee /\
    flashes (snd (add_employee req (signed_in [ann; bob]))) =
      [("danger", msg)] /\
    employees (snd (add_employee req (signed_in [ann; bob]))) = [ann; bob] /\
    users (snd (add_employee req (signed_in [ann; bob]))) = [admin] /\
    session_user_id (snd (add_employee req (signed_in [ann; bob]))) = Some 1.
Proof.
  intros req.
  apply (validation_is_atomic (signed_in [ann; bob]) req eq_refl eq_refl).
  right. left. exists "ann@x.com". split; [reflexivity|].
  exists ann. split; [now left | reflexivity].
Defined.

(** ** The uniqueness constraints are invariants *)

Lemma insert_row_unique (new : Z -> Employee.t) (tbl : list Employee.t) :
  (forall i, Employee.id (new i) = i) ->
  ~ email_taken (Employee.email (new (next_id tbl))) tbl ->
  unique_ids tbl -> unique_emails tbl ->
  unique_ids (insert_row new tbl) /\ unique_emails (insert_row new tbl).
Proof.
  unfold unique_ids, unique_emails, insert_row. intros Hid T Ui Ue.
  rewrite !map_app. simpl. split.
  - apply NoDup_app; [assumption | repeat constructor; simpl; tauto |].
    intros x Hx [<- | []]. apply in_map_iff in Hx as [e [He Hin]].
    pose proof (next_id_fresh tbl e Hin). rewrite Hid in He. lia.
  - apply NoDup_app; [assumption | repeat constructor; simpl; tauto |].
    intros x Hx [<- | []]. apply in_map_iff in Hx as [e [He Hin]].
    apply T. now exists e.
Qed.

Lemma update_row_unique (row : Employee.t) (tbl : list Employee.t) :
  (forall e, In e tbl -> Employee.email e = Employee.email row ->
             Employee.id e = Employee.id row) ->
  unique_ids tbl -> unique_emails tbl ->
  unique_ids (update_row row tbl) /\ unique_emails (update_row row tbl).
Proof.
  unfold unique_ids at 2. rewrite update_row_ids.
  intros Own Ui Ue. split; [assumption|].
  unfold unique_ids, unique_emails, update_row in *.
  induction tbl as [|a tbl IH]; simpl; [constructor|].
  simpl in Ui, Ue.
  inversion Ui as [|? ? Ni Ui']; inversion Ue as [|? ? Ne Ue']; subst.
  assert (IH' := IH (fun e H => Own e (or_intror H)) Ui' Ue').
  constructor; [|exact IH'].
  intros Hin. apply in_map_iff in Hin as [y [Hy Hin]].
  apply in_map_iff in Hin as [x [Hx Hin]].
  destruct (Employee.id a =? Employee.id row) eqn:Ea;
    destruct (Employee.id x =? Employee.id row) eqn:Ex; subst y;
    try change (Employee.email (committed row)) with (Employee.email row)
      in *.
  - apply Z.eqb_eq in Ea, Ex. apply Ni. rewrite Ea, <- Ex. now apply in_map.
  - apply Ni. rewrite (proj1 (Z.eqb_eq _ _) Ea).
    rewrite <- (Own x (or_intror Hin) Hy). now apply in_map.
  - apply Z.eqb_neq in Ea. apply Ea. apply (Own a); [now left | congruence].
  - apply Ne. rewrite <- Hy. now apply in_map.
Qed.

Lemma delete_row_unique (row : Employee.t) (tbl : list Employee.t) :
  unique_ids tbl -> unique_emails tbl ->
  unique_ids (delete_row row tbl) /\ unique_emails (delete_row row tbl).
Proof.
  unfold unique_ids, unique_emails, delete_row.
  induction tbl as [|a tbl IH]; simpl; [auto|].
  intros Ui Ue.
  inversion Ui as [|? ? Ni Ui']; inversion Ue as [|? ? Ne Ue']; subst.
  destruct (IH Ui' Ue') as [I1 I2].
  destruct (negb (Employee.id a =? Employee.id row)); [|auto].
  simpl. split; constructor; try assumption.
  - intros H. apply Ni. apply in_map_iff in H as [x [Hx Hin]].
    apply filter_In in Hin as [Hin _]. rewrite <- Hx. now apply in_map.
  - intros H. apply Ne. apply in_map_iff in H as [x [Hx Hin]].
    apply filter_In in Hin as [Hin _]. rewrite <- Hx. now apply in_map.
Qed.

(** C6: from a table in which no two records share an email (and, as the
    primary key demands, none share an id), every add, update and delete
    request, signed in or not, passing validation or not, leaves a table in
    which no two records share an email (and none share an id). *)
Theorem unique_emails_preserved :
  forall (st : state) (req : request) (id : Z),
    unique_emails (employees st) ->
    unique_ids (employees st) ->
    (unique_emails (employees (snd (add_employee req st))) /\
     unique_ids (employees (snd (add_employee req st)))) /\
    (unique_emails (employees (snd (update_employee id req st))) /\
     unique_ids (employees (snd (update_employee id req st)))) /\
    (unique_emails (employees (snd (delete_employee id st))) /\
     unique_ids (employees (snd (delete_employee id st)))).
Proof.
  intros st req id Ue Ui.
  unfold add_employee, update_employee, delete_employee, login_required,
    unauthorized.
  destruct (is_authenticated st); [|simpl; tauto].
  split; [|split].
  - destruct (method req); [simpl; tauto|].
    destruct (negb (truthy (form_get (form req) "name")) ||
              negb (truthy (form_get (form req) "email"))) eqn:T;
      [simpl; tauto|].
    apply orb_false_elim in T as [_ Te]. apply negb_false_iff in Te.
    apply truthy_text in Te as [m [Hm _]]. rewrite Hm.
    destruct (filter_by_email (Some m) (employees st)) eqn:F;
      [simpl; tauto|].
    destruct (read_salary _); [|simpl; tauto].
    destruct (form_getitem (form req) "position"); [|simpl; tauto].
    destruct (form_getitem (form req) "department"); [|simpl; tauto].
    simpl. apply and_comm. apply insert_row_unique; try assumption.
    + reflexivity.
    + simpl. now apply filter_by_email_None.
  - destruct (get_or_404 id (employees st)) as [employee|] eqn:G;
      [|simpl; tauto].
    destruct (method req); [simpl; tauto|].
    destruct (negb (truthy (form_get (form req) "name")) ||
              negb (truthy (form_get (form req) "email"))) eqn:T;
      [simpl; tauto|].
    apply orb_false_elim in T as [_ Te]. apply negb_false_iff in Te.
    apply truthy_text in Te as [m [Hm _]]. rewrite Hm.
    destruct (match filter_by_email _ _ with Some _ => _ | None => _ end)
      eqn:C; [simpl; tauto|].
    destruct (read_salary _); [|simpl; tauto].
    destruct (form_getitem (form req) "position"); [|simpl; tauto].
    destruct (form_getitem (form req) "department"); [|simpl; tauto].
    simpl. apply and_comm. apply update_row_unique; try assumption.
    simpl. intros e Hin He.
    apply get_or_404_Some in G as [_ ->].
    destruct (Z.eq_dec (Employee.id e) id) as [|Hne]; [assumption|].
    exfalso.
    assert (K : email_taken_by_other id m (employees st)) by now exists e.
    apply (duplicate_check_update id m _ Ue) in K. congruence.
  - destruct (get_or_404 id (employees st)) as [employee|] eqn:G;
      [|simpl; tauto].
    simpl. apply and_comm. now apply delete_row_unique.
Qed.

Lemma unique_emails_preserved_witness :
  let req := post [("name", "Bob"); ("email", "ann@x.com");
                   ("position", "Eng"); ("department", "R&D");
                   ("salary", "60000")] in
  unique_emails (employees (snd (update_employee 2 req (signed_in [ann; bob])))).
Proof.
  intros req.
  apply (unique_emails_preserved (signed_in [ann; bob]) req 2).
  - unfold unique_emails. simpl.
    repeat constructor; simpl; intuition discriminate.
  - unfold unique_ids. simpl.
    repeat constructor; simpl; intuition discriminate.
Defined.

(** ** A run through the views *)

Example scenario :
  let ann_form := [("name", "Ann"); ("position", "Eng"); ("department", "R&D");
                   ("email", "ann@x.com"); ("salary", "50000")] in
  let bob_form := [("name", "Bob"); ("position", "Eng"); ("department", "R&D");
                   ("email", "ann@x.com"); ("salary", "60000")] in
  let ann2_form := [("name", "Ann"); ("position", "Eng");
                    ("department", "R&D"); ("email", "ann2@x.com");
                    ("salary", "50000")] in
  let s1 := snd (add_employee (post ann_form) (signed_in [])) in
  let s2 := snd (add_employee (post bob_form) s1) in
  let s3 := snd (update_employee 1 (post ann2_form) s2) in
  let s4 := snd (delete_employee 1 s3) in
  fst (index s1) = Render "index.html" [ann] /\
  fst (add_employee (post bob_form) s1) = Redirect ep_add_employee /\
  employees s2 = [ann] /\
  fst (update_employee 1 (post ann2_form) s2) = Redirect ep_index /\
  employees s3 = [Employee.set_email ann "ann2@x.com"] /\
  fst (delete_employee 1 s3) = Redirect ep_index /\
  employees s4 = [].
Proof. repeat split; reflexivity. Qed.

(** Salary texts at the edges of what [float] reads: the Arabic-Indic
    digits of 123 and a no-break space around 12 are read; the separator
    byte 28 before 12, a missing exponent and a letter are not. *)
Example float_edges :
  PyFloat.float (bytes [217; 161; 217; 162; 217; 163]) =
    PyFloat.float "123" /\
  PyFloat.float (bytes [194; 160; 49; 50; 194; 160]) = PyFloat.float "12" /\
  PyFloat.float " 1_000.5e-1 " = PyFloat.float "100.05" /\
  PyFloat.float (bytes [28; 49; 50]) = None /\
  PyFloat.float "1e" = None /\
  PyFloat.float "12a" = None /\
  PyFloat.float "1__0" = None /\
  PyFloat.float "1e400" = Some (S754_infinity false).
Proof. repeat split; vm_compute; reflexivity. Qed.

(** What the table keeps of the salaries nan, minus zero and minus
    infinity. *)
Example salary_column_edges :
  let fields := fun s =>
    [("name", "Ann"); ("email", "ann@x.com"); ("position", "Eng");
     ("department", "R&D"); ("salary", s)] in
  let stored := fun s =>
    map Employee.salary
        (employees (snd (add_employee (post (fields s)) (signed_in [])))) in
  stored "nan" = [None] /\
  stored "-0" = [Some (S754_zero false)] /\
  stored "-inf" = [Some (S754_infinity true)] /\
  stored "" = [Some PyFloat.zero].
Proof. repeat split; vm_compute; reflexivity. Qed.

Example login_runs :
  let good := post [("username", "admin"); ("password", "password123")] in
  let bad := post [("username", "admin"); ("password", "wrong")] in
  login toy_check good (anonymous []) =
    (Redirect ep_index,
     flash "Login successful!" "success" (login_user admin (anonymous [])))
  /\ is_authenticated (snd (login toy_check good (anonymous []))) = true
  /\ login toy_check bad (anonymous []) = login_fails (anonymous [])
  /\ fst (logout (snd (login toy_check good (anonymous [])))) =
       Redirect ep_login
  /\ is_authenticated
       (snd (logout (snd (login toy_check good (anonymous []))))) = false.
Proof. repeat split; reflexivity. Qed.

(** * Further properties of the views *)

(** ** Start-up *)

(** X1: seeding leaves a table that has a user as it is and puts exactly
    the user admin, with the hash of the default password, into an empty
    one; seeding again (with any salt) changes nothing more, the table is
    never empty afterwards, and unique usernames stay unique. *)
Theorem seed_only_fills_empty_table :
  forall (generate : string -> string -> string) (salt salt' : string)
         (tbl : list User.t),
    (tbl <> [] -> seed generate salt tbl = tbl) /\
    seed generate salt [] =
      [User.mk 1 "admin" (generate salt "password123")] /\
    seed generate salt' (seed generate salt tbl) = seed generate salt tbl /\
    seed generate salt tbl <> [] /\
    (unique_usernames tbl -> unique_usernames (seed generate salt tbl)).
Proof.
  intros generate salt salt' tbl. destruct tbl as [|u tbl]; simpl.
  - repeat split; try discriminate; try reflexivity.
    + intros H. now destruct H.
    + intros _. unfold unique_usernames. simpl.
      repeat constructor. simpl. tauto.
  - repeat split; try discriminate; auto.
Qed.

Lemma is_authenticated_ext (st st' : state) :
  users st' = users st -> session_user_id st' = session_user_id st ->
  is_authenticated st' = is_authenticated st.
Proof.
  unfold is_authenticated, current_user. now intros -> ->.
Qed.

(** X2: with a hash routine whose hashes verify against the password they
    were made from, an anonymous state whose user table has just been
    seeded from empty lets a POST with admin and the default password sign
    in: the session is bound to user 1 and the state is authenticated.  A
    password the seeded hash does not verify against gets the login-failed
    answer. *)
Theorem seeded_admin_can_sign_in :
  forall (generate : string -> string -> string)
         (check : string -> string -> bool) (salt : string) (st : state)
         (req : request) (password : string),
    (forall s p, check (generate s p) p = true) ->
    users st = [] ->
    session_user_id st = None ->
    credentials req "admin" password ->
    let booted := set_users (seed generate salt (users st)) st in
    (password = "password123" ->
       session_user_id (snd (login check req booted)) = Some 1 /\
       is_authenticated (snd (login check req booted)) = true /\
       fst (login check req booted) = Redirect ep_index) /\
    (check (generate salt "password123") password = false ->
       login check req booted = login_fails booted).
Proof.
  intros generate check salt st req password Hash Empty Anon (M & Hu & Hp)
    booted.
  subst booted. rewrite Empty. unfold login, is_authenticated, current_user.
  simpl. rewrite Anon, M, Hu, Hp. simpl. split.
  - intros ->. rewrite Hash. simpl. repeat split.
  - intros ->. reflexivity.
Qed.

Lemma seeded_admin_can_sign_in_witness :
  let req := post [("username", "admin"); ("password", "password123")] in
  let booted :=
    set_users (seed toy_generate "salt" []) (mk_state [] [ann] None []) in
  session_user_id (snd (login toy_check req booted)) = Some 1.
Proof.
  intros req booted.
  assert (Hash : forall s p, toy_check (toy_generate s p) p = true).
  { intros s p. unfold toy_check, toy_generate. apply String.eqb_refl. }
  apply (seeded_admin_can_sign_in toy_generate toy_check "salt"
           (mk_state [] [ann] None []) req "password123" Hash
           eq_refl eq_refl).
  - repeat split.
  - reflexivity.
Defined.

(** ** Sessions *)

(** X3: whatever the request and the state, [login] changes neither table,
    and the user id in the session afterwards is the one before unless the
    request is a POST whose username is that of a stored user and whose
    password verifies against that user's hash, in which case it is that
    user's id. *)
Theorem login_binds_session_only_on_verified_password :
  forall (check : string -> string -> bool) (req : request) (st : state),
    users (snd (login check req st)) = users st /\
    employees (snd (login check req st)) = employees st /\
    (session_user_id (snd (login check req st)) = session_user_id st \/
     exists u p,
       In u (users st) /\
       method req = POST /\
       form_get (form req) "username" = Some (User.username u) /\
       form_get (form req) "password" = Some p /\
       check (User.password_hash u) p = true /\
       session_user_id (snd (login check req st)) = Some (User.id u)).
Proof.
  intros check req st. unfold login.
  destruct (is_authenticated st); [simpl; auto|].
  destruct (method req) eqn:M; [simpl; auto|].
  destruct (form_get (form req) "username") as [n|] eqn:Hu;
    [|simpl; auto].
  destruct (user_filter_by_username (Some n) (users st)) as [u|] eqn:F;
    [|simpl; auto].
  apply user_filter_by_username_Some in F as [Hin Hn].
  destruct (form_get (form req) "password") as [p|] eqn:Hp;
    [|simpl; auto].
  simpl. destruct (check (User.password_hash u) p) eqn:C; [|simpl; auto].
  simpl. split; [reflexivity|]. split; [reflexivity|].
  right. exists u, p. subst n. repeat split; auto.
Qed.

(** X4: after [logout], from any state, the state is not authenticated and
    the tables are as before; each protected view run next answers with the
    redirect to the login view and leaves the employee table alone. *)
Theorem logout_ends_session :
  forall (st : state) (req : request) (id : Z),
    let st' := snd (logout st) in
    fst (logout st) = Redirect ep_login /\
    is_authenticated st' = false /\
    users st' = users st /\
    employees st' = employees st /\
    Forall (fun r => fst r = Redirect ep_login /\
                     employees (snd r) = employees st)
      [index st'; add_employee req st'; update_employee id req st';
       delete_employee id st'; logout st'].
Proof.
  intros st req id st'.
  assert (Out : is_authenticated st' = false).
  { subst st'. unfold logout, login_required.
    destruct (is_authenticated st) eqn:A; [reflexivity|].
    simpl. rewrite <- A. now apply is_authenticated_ext. }
  assert (E : employees st' = employees st).
  { subst st'. unfold logout, login_required.
    now destruct (is_authenticated st). }
  repeat split; try assumption.
  - unfold logout, login_required. now destruct (is_authenticated st).
  - subst st'. unfold logout, login_required.
    now destruct (is_authenticated st).
  - unfold index, add_employee, update_employee, delete_employee, logout.
    rewrite !(login_required_out _ st' Out), <- E.
    repeat constructor.
Qed.

(** X5: no employee view touches the user table or the session, whatever
    the request: a caller who is signed in before [index], [add_employee],
    [update_employee] or [delete_employee] is signed in after it, and one
    who is not stays so. *)
Theorem employee_views_keep_session :
  forall (st : state) (req : request) (id : Z),
    Forall (fun r => users (snd r) = users st /\
                     session_user_id (snd r) = session_user_id st /\
                     is_authenticated (snd r) = is_authenticated st)
      [index st; add_employee req st; update_employee id req st;
       delete_employee id st].
Proof.
  intros st req id.
  assert (K : forall r : result,
            users (snd r) = users st ->
            session_user_id (snd r) = session_user_id st ->
            users (snd r) = users st /\
            session_user_id (snd r) = session_user_id st /\
            is_authenticated (snd r) = is_authenticated st).
  { intros r Hu Hs. repeat split; try assumption.
    now apply is_authenticated_ext. }
  assert (Add : users (snd (add_employee req st)) = users st /\
                session_user_id (snd (add_employee req st)) =
                  session_user_id st).
  { unfold add_employee, login_required, unauthorized. cbv zeta.
    destruct (is_authenticated st); [|split; reflexivity].
    destruct (method req); [split; reflexivity|].
    destruct (negb (truthy (form_get (form req) "name")) ||
              negb (truthy (form_get (form req) "email")));
      [split; reflexivity|].
    destruct (filter_by_email _ _); [split; reflexivity|].
    destruct (read_salary _); [|split; reflexivity].
    destruct (form_getitem (form req) "position"); [|split; reflexivity].
    destruct (form_getitem (form req) "department"); split; reflexivity. }
  assert (Upd : users (snd (update_employee id req st)) = users st /\
                session_user_id (snd (update_employee id req st)) =
                  session_user_id st).
  { unfold update_employee, login_required, unauthorized. cbv zeta.
    destruct (is_authenticated st); [|split; reflexivity].
    destruct (get_or_404 id (employees st)); [|split; reflexivity].
    destruct (method req); [split; reflexivity|].
    destruct (negb (truthy (form_get (form req) "name")) ||
              negb (truthy (form_get (form req) "email")));
      [split; reflexivity|].
    destruct (match filter_by_email _ _ with Some _ => _ | None => _ end);
      [split; reflexivity|].
    destruct (read_salary _); [|split; reflexivity].
    destruct (form_getitem (form req) "position"); [|split; reflexivity].
    destruct (form_getitem (form req) "department"); split; reflexivity. }
  assert (Del : users (snd (delete_employee id st)) = users st /\
                session_user_id (snd (delete_employee id st)) =
                  session_user_id st).
  { unfold delete_employee, login_required, unauthorized.
    destruct (is_authenticated st); [|split; reflexivity].
    destruct (get_or_404 id (employees st)); split; reflexivity. }
  assert (Idx : users (snd (index st)) = users st /\
                session_user_id (snd (index st)) = session_user_id st).
  { unfold index, login_required, unauthorized.
    destruct (is_authenticated st); split; reflexivity. }
  constructor; [now apply K|].
  constructor; [now apply K|].
  constructor; [now apply K|].
  constructor; [now apply K|].
  constructor.
Qed.

(** ** Reading without writing *)

(** X6: for a signed-in caller a GET changes nothing: the state after
    [index], after a GET of the add form and after a GET of the edit form of
    any id (stored or not) is the state before, whatever fields the request
    carries; a GET of the login view changes nothing for any caller. *)
Theorem get_requests_change_nothing :
  forall (check : string -> string -> bool) (st : state) (f : MultiDict)
         (id : Z),
    snd (login check (get f) st) = st /\
    (is_authenticated st = true ->
       snd (index st) = st /\
       snd (add_employee (get f) st) = st /\
       snd (update_employee id (get f) st) = st).
Proof.
  intros check st f id. split.
  - unfold login. now destruct (is_authenticated st).
  - intros A. unfold index, add_employee, update_employee.
    rewrite !login_required_in by assumption. simpl.
    repeat split. now destruct (get_or_404 id (employees st)).
Qed.

Lemma get_requests_change_nothing_witness :
  snd (update_employee 2 (get [("name", "")]) (signed_in [ann; bob])) =
    signed_in [ann; bob].
Proof.
  apply (get_requests_change_nothing toy_check (signed_in [ann; bob])
           [("name", "")] 2).
  reflexivity.
Defined.

(** X7: the edit view looks the record up before it reads the request.  For
    a signed-in caller, an id that no record carries is answered 404 with
    the state untouched, whatever the method and the fields, valid or not;
    for the id of a stored record (ids being unique) a GET renders the edit
    form with exactly that record. *)
Theorem edit_looks_up_before_validating :
  forall (st : state) (id : Z),
    is_authenticated st = true ->
    ((forall e, In e (employees st) -> Employee.id e <> id) ->
       forall req, update_employee id req st = (Abort 404, st)) /\
    (forall e f,
       unique_ids (employees st) ->
       In e (employees st) -> Employee.id e = id ->
       update_employee id (get f) st =
         (Render "update_employee.html" [e], st)).
Proof.
  intros st id A. unfold update_employee. split.
  - intros H req. rewrite login_required_in by assumption.
    apply get_or_404_None in H. now rewrite H.
  - intros e f U Hin Hid. rewrite login_required_in by assumption.
    now rewrite (get_or_404_In id _ e U Hin Hid).
Qed.

Lemma edit_looks_up_before_validating_witness :
  update_employee 7 (post [("name", ""); ("salary", "abc")])
    (signed_in [ann; bob]) = (Abort 404, signed_in [ann; bob]).
Proof.
  apply (edit_looks_up_before_validating (signed_in [ann; bob]) 7 eq_refl).
  simpl. intros e [<-|[<-|[]]]; simpl; discriminate.
Defined.

(** ** Writes that pass the checks *)

Lemma find_app_first {A : Type} (f : A -> bool) (l r : list A) :
  find f (l ++ r) =
    match find f l with
    | Some x => Some x
    | None => find f r
    end.
Proof.
  induction l as [|a l IH]; simpl; [reflexivity|].
  now destruct (f a).
Qed.

Lemma own_email_passes id m tbl :
  ~ email_taken_by_other id m tbl ->
  match filter_by_email (Some m) tbl with
  | Some e => negb (Employee.id e =? id)
  | None => false
  end = false.
Proof.
  intros T. destruct (filter_by_email (Some m) tbl) as [x|] eqn:F;
    [|reflexivity].
  apply filter_by_email_Some in F as [Hin Hx].
  apply negb_false_iff, Z.eqb_eq.
  destruct (Z.eq_dec (Employee.id x) id) as [|Hne]; [assumption|].
  destruct T. now exists x.
Qed.

Lemma add_employee_complete st req name email salary position department :
  is_authenticated st = true ->
  complete req name email salary position department ->
  ~ email_taken email (employees st) ->
  add_employee req st =
    (Redirect ep_index,
     flash ("Employee " ++ name ++ " added successfully!") "success"
       (set_employees
          (employees st ++
           [Employee.mk (next_id (employees st)) name position
              (Some department) email (real_column (Some salary))])%list
          st)).
Proof.
  intros A (Sub & R & P & D) T.
  rewrite (add_employee_submitted st req name email A Sub).
  apply filter_by_email_None in T. now rewrite T, R, P, D.
Qed.

Lemma update_employee_complete st id req name email salary position
    department employee :
  is_authenticated st = true ->
  get_or_404 id (employees st) = Some employee ->
  complete req name email salary position department ->
  ~ email_taken_by_other id email (employees st) ->
  update_employee id req st =
    (Redirect ep_index,
     flash ("Employee " ++ name ++ " updated successfully!") "success"
       (set_employees
          (update_row
             (Employee.mk id name position (Some department) email
                (Some salary))
             (employees st)) st)).
Proof.
  intros A G (Sub & R & P & D) T.
  rewrite (update_employee_submitted st id req name email employee A G Sub).
  rewrite (own_email_passes id email _ T), R, P, D.
  now destruct (get_or_404_Some _ _ _ G) as [_ ->].
Qed.

(** X8: a create request that passes the checks stores one record more,
    under a key that no record carried before; afterwards the record, with
    all the submitted fields, is the one found under that key and under its
    email, and every record found under a key before is still found there
    unchanged. *)
Theorem added_record_gets_fresh_id :
  forall (st : state) (req : request) (name email position department : string)
         (salary : PyFloat.pyfloat),
    is_authenticated st = true ->
    complete req name email salary position department ->
    ~ email_taken email (employees st) ->
    let after := employees (snd (add_employee req st)) in
    exists new,
      Employee.name new = name /\ Employee.email new = email /\
      Employee.position new = position /\
      Employee.department new = Some department /\
      (forall e, In e (employees st) -> Employee.id e <> Employee.id new) /\
      get_or_404 (Employee.id new) after = Some new /\
      filter_by_email (Some email) after = Some new /\
      (forall i e, get_or_404 i (employees st) = Some e ->
                   get_or_404 i after = Some e) /\
      List.length after = S (List.length (employees st)).
Proof.
  intros st req name email position department salary A C T after.
  subst after.
  rewrite (add_employee_complete st req name email salary position department
             A C T).
  simpl snd. simpl employees.
  set (new := Employee.mk (next_id (employees st)) name position
                (Some department) email (real_column (Some salary))).
  assert (Fresh : forall e, In e (employees st) ->
                            Employee.id e <> Employee.id new).
  { intros e Hin Heq. pose proof (next_id_fresh _ _ Hin) as K.
    simpl in Heq. lia. }
  exists new. repeat split; try reflexivity.
  - exact Fresh.
  - unfold get_or_404. rewrite find_app_first.
    destruct (find _ (employees st)) as [x|] eqn:F.
    + apply find_some in F as [Hin Heq]. apply Z.eqb_eq in Heq.
      now destruct (Fresh x Hin).
    + simpl. now rewrite Z.eqb_refl.
  - simpl. rewrite find_app_first.
    apply filter_by_email_None in T. simpl in T. rewrite T.
    simpl. now rewrite String.eqb_refl.
  - intros i e G. unfold get_or_404 in *. rewrite find_app_first.
    now rewrite G.
  - rewrite length_app. simpl. lia.
Qed.

Lemma added_record_gets_fresh_id_witness :
  let req := post [("name", "Cy"); ("email", "cy@x.com");
                   ("position", "Eng"); ("department", "Ops")] in
  exists new,
    Employee.name new = "Cy" /\ Employee.email new = "cy@x.com" /\
    Employee.position new = "Eng" /\ Employee.department new = Some "Ops" /\
    (forall e, In e [ann; bob] -> Employee.id e <> Employee.id new) /\
    get_or_404 (Employee.id new)
      (employees (snd (add_employee req (signed_in [ann; bob])))) = Some new /\
    filter_by_email (Some "cy@x.com")
      (employees (snd (add_employee req (signed_in [ann; bob])))) = Some new /\
    (forall i e, get_or_404 i [ann; bob] = Some e ->
       get_or_404 i
         (employees (snd (add_employee req (signed_in [ann; bob])))) =
         Some e) /\
    List.length (employees (snd (add_employee req (signed_in [ann; bob])))) =
      3%nat.
Proof.
  intros req.
  refine (added_record_gets_fresh_id (signed_in [ann; bob]) req
            "Cy" "cy@x.com" "Eng" "Ops" PyFloat.zero eq_refl _ _).
  - repeat split; discriminate.
  - intros [e [[<-|[<-|[]]] H]]; discriminate.
Defined.

Lemma add_keeps_authenticated st req :
  is_authenticated (snd (add_employee req st)) = is_authenticated st.
Proof.
  unfold add_employee, login_required, unauthorized. cbv zeta.
  apply is_authenticated_ext;
    (destruct (is_authenticated st); [|reflexivity];
     destruct (method req); [reflexivity|];
     destruct (negb (truthy (form_get (form req) "name")) ||
               negb (truthy (form_get (form req) "email")));
       [reflexivity|];
     destruct (filter_by_email _ _); [reflexivity|];
     destruct (read_salary _); [|reflexivity];
     destruct (form_getitem (form req) "position"); [|reflexivity];
     destruct (form_getitem (form req) "department"); reflexivity).
Qed.

(** X9: sending a successful create request a second time fails with the
    duplicate-email message and leaves the table as the first request left
    it, with one record holding that email. *)
Theorem add_twice_fails_duplicate :
  forall (st : state) (req : request) (name email position department : string)
         (salary : PyFloat.pyfloat),
    is_authenticated st = true ->
    complete req name email salary position department ->
    ~ email_taken email (employees st) ->
    let st1 := snd (add_employee req st) in
    add_employee req st1 = add_fails DuplicateEmail_add st1 /\
    employees (snd (add_employee req st1)) = employees st1 /\
    List.length
      (filter (fun e => String.eqb (Employee.email e) email) (employees st1))
    = 1%nat.
Proof.
  intros st req name email position department salary A C T st1.
  assert (A1 : is_authenticated st1 = true)
    by (subst st1; now rewrite add_keeps_authenticated).
  assert (E1 : employees st1 =
               (employees st ++
                [Employee.mk (next_id (employees st)) name position
                   (Some department) email
                   (real_column (Some salary))])%list).
  { subst st1.
    now rewrite (add_employee_complete st req name email salary position
                   department A C T). }
  assert (F : filter_by_email (Some email) (employees st1) <> None).
  { rewrite E1. simpl. rewrite find_app_first.
    destruct (find _ (employees st)); [discriminate|].
    simpl. rewrite String.eqb_refl. discriminate. }
  assert (R : add_employee req st1 = add_fails DuplicateEmail_add st1).
  { rewrite (add_employee_submitted st1 req name email A1 (proj1 C)).
    destruct (filter_by_email (Some email) (employees st1));
      [reflexivity | contradiction]. }
  split; [exact R|]. split; [now rewrite R|].
  rewrite E1, filter_app, length_app. simpl. rewrite String.eqb_refl. simpl.
  assert (Z0 : filter (fun e => String.eqb (Employee.email e) email)
                 (employees st) = []).
  { destruct (filter _ (employees st)) as [|x l] eqn:Fl; [reflexivity|].
    exfalso. apply T. exists x.
    assert (Hx : In x (filter (fun e => String.eqb (Employee.email e) email)
                         (employees st))) by (rewrite Fl; now left).
    apply filter_In in Hx as [Hin Hx]. split; [assumption|].
    now apply String.eqb_eq. }
  now rewrite Z0.
Qed.

Lemma add_twice_fails_duplicate_witness :
  let req := post [("name", "Cy"); ("email", "cy@x.com");
                   ("position", "Eng"); ("department", "Ops")] in
  let st1 := snd (add_employee req (signed_in [ann; bob])) in
  add_employee req st1 = add_fails DuplicateEmail_add st1.
Proof.
  intros req st1.
  apply (add_twice_fails_duplicate (signed_in [ann; bob]) req
           "Cy" "cy@x.com" "Eng" "Ops" PyFloat.zero).
  - reflexivity.
  - repeat split; discriminate.
  - intros [e [[<-|[<-|[]]] H]]; discriminate.
Defined.

Lemma delete_keeps_authenticated st id :
  is_authenticated (snd (delete_employee id st)) = is_authenticated st.
Proof.
  unfold delete_employee, login_required, unauthorized.
  apply is_authenticated_ext;
    (destruct (is_authenticated st); [|reflexivity];
     now destruct (get_or_404 id (employees st))).
Qed.

(** X10: deleting the record that a successful create request has just
    stored undoes the creation: the delete succeeds and the employee table
    is again the one before the create. *)
Theorem add_then_delete_restores_table :
  forall (st : state) (req : request) (name email position department : string)
         (salary : PyFloat.pyfloat),
    is_authenticated st = true ->
    complete req name email salary position department ->
    ~ email_taken email (employees st) ->
    let st1 := snd (add_employee req st) in
    fst (delete_employee (next_id (employees st)) st1) = Redirect ep_index /\
    employees (snd (delete_employee (next_id (employees st)) st1)) =
      employees st.
Proof.
  intros st req name email position department salary A C T st1.
  assert (A1 : is_authenticated st1 = true)
    by (subst st1; now rewrite add_keeps_authenticated).
  pose proof (added_fresh := next_id_fresh (employees st)).
  set (new := Employee.mk (next_id (employees st)) name position
                (Some department) email (real_column (Some salary))).
  assert (E1 : employees st1 = (employees st ++ [new])%list).
  { subst st1.
    now rewrite (add_employee_complete st req name email salary position
                   department A C T). }
  assert (G : get_or_404 (next_id (employees st)) (employees st1) = Some new).
  { rewrite E1. unfold get_or_404. rewrite find_app_first.
    destruct (find _ (employees st)) as [x|] eqn:F.
    - apply find_some in F as [Hin Heq]. apply Z.eqb_eq in Heq.
      pose proof (added_fresh _ Hin). lia.
    - simpl. now rewrite Z.eqb_refl. }
  unfold delete_employee. rewrite login_required_in, G by assumption.
  simpl. split; [reflexivity|].
  rewrite E1. unfold delete_row. rewrite filter_app. simpl.
  rewrite Z.eqb_refl. simpl. rewrite app_nil_r.
  apply forallb_filter_id, forallb_forall. intros x Hx.
  apply negb_true_iff, Z.eqb_neq. pose proof (added_fresh _ Hx). lia.
Qed.

Lemma add_then_delete_restores_table_witness :
  let req := post [("name", "Cy"); ("email", "cy@x.com");
                   ("position", "Eng"); ("department", "Ops")] in
  employees
    (snd (delete_employee 3 (snd (add_employee req (signed_in [ann; bob])))))
  = [ann; bob].
Proof.
  intros req.
  refine (proj2 (add_then_delete_restores_table (signed_in [ann; bob]) req
                   "Cy" "cy@x.com" "Eng" "Ops" PyFloat.zero eq_refl _ _)).
  - repeat split; discriminate.
  - intros [e [[<-|[<-|[]]] H]]; discriminate.
Defined.

(** X11: after a signed-in delete of an id, whether it found a record or
    not, no stored record carries that id: deleting it again and editing it
    (with any request) are both answered 404 and change nothing. *)
Theorem deleted_id_is_gone :
  forall (st : state) (id : Z),
    is_authenticated st = true ->
    let st1 := snd (delete_employee id st) in
    (forall e, In e (employees st1) -> Employee.id e <> id) /\
    delete_employee id st1 = (Abort 404, st1) /\
    (forall req, update_employee id req st1 = (Abort 404, st1)).
Proof.
  intros st id A st1.
  assert (A1 : is_authenticated st1 = true)
    by (subst st1; now rewrite delete_keeps_authenticated).
  assert (Gone : forall e, In e (employees st1) -> Employee.id e <> id).
  { subst st1. unfold delete_employee.
    rewrite login_required_in by assumption.
    destruct (get_or_404 id (employees st)) as [x|] eqn:G.
    - simpl. intros e Hin. unfold delete_row in Hin.
      apply filter_In in Hin as [_ Hne].
      apply negb_true_iff, Z.eqb_neq in Hne.
      apply get_or_404_Some in G as [_ Hx]. congruence.
    - simpl. now apply get_or_404_None. }
  pose proof (proj2 (get_or_404_None id (employees st1)) Gone) as N.
  split; [exact Gone|].
  unfold delete_employee, update_employee.
  split; [|intros req]; rewrite login_required_in by assumption;
    now rewrite N.
Qed.

Lemma deleted_id_is_gone_witness :
  let st1 := snd (delete_employee 1 (signed_in [ann; bob])) in
  delete_employee 1 st1 = (Abort 404, st1).
Proof.
  intros st1.
  exact (proj1 (proj2 (deleted_id_is_gone (signed_in [ann; bob]) 1 eq_refl))).
Defined.

Lemma update_keeps_authenticated st id req :
  is_authenticated (snd (update_employee id req st)) = is_authenticated st.
Proof.
  unfold update_employee, login_required, unauthorized. cbv zeta.
  apply is_authenticated_ext;
    (destruct (is_authenticated st); [|reflexivity];
     destruct (get_or_404 id (employees st)); [|reflexivity];
     destruct (method req); [reflexivity|];
     destruct (negb (truthy (form_get (form req) "name")) ||
               negb (truthy (form_get (form req) "email")));
       [reflexivity|];
     destruct (match filter_by_email _ _ with Some _ => _ | None => _ end);
       [reflexivity|];
     destruct (read_salary _); [|reflexivity];
     destruct (form_getitem (form req) "position"); [|reflexivity];
     destruct (form_getitem (form req) "department"); reflexivity).
Qed.

Lemma update_row_idempotent row tbl :
  update_row row (update_row row tbl) = update_row row tbl.
Proof.
  unfold update_row. rewrite map_map. apply map_ext. intros x.
  destruct (Employee.id x =? Employee.id row) eqn:E.
  - simpl. now rewrite Z.eqb_refl.
  - now rewrite E.
Qed.

(** X12: sending a successful update request a second time succeeds again
    and leaves the employee table exactly as the first request left it. *)
Theorem update_is_idempotent :
  forall (st : state) (id : Z) (req : request)
         (name email position department : string)
         (salary : PyFloat.pyfloat) (employee : Employee.t),
    is_authenticated st = true ->
    get_or_404 id (employees st) = Some employee ->
    complete req name email salary position department ->
    ~ email_taken_by_other id email (employees st) ->
    let st1 := snd (update_employee id req st) in
    fst (update_employee id req st1) = Redirect ep_index /\
    employees (snd (update_employee id req st1)) = employees st1.
Proof.
  intros st id req name email position department salary employee A G C T
    st1.
  set (row := Employee.mk id name position (Some department) email
                (Some salary)).
  assert (A1 : is_authenticated st1 = true)
    by (subst st1; now rewrite update_keeps_authenticated).
  assert (E1 : employees st1 = update_row row (employees st)).
  { subst st1.
    now rewrite (update_employee_complete st id req name email salary
                   position department employee A G C T). }
  assert (G1 : get_or_404 id (employees st1) = Some (committed row)).
  { rewrite E1. apply (get_or_404_update_row row _ employee). exact G. }
  assert (T1 : ~ email_taken_by_other id email (employees st1)).
  { rewrite E1. intros [e (Hin & Hm & Hne)]. unfold update_row in Hin.
    apply in_map_iff in Hin as [x [Hx Hin]].
    destruct (Employee.id x =? Employee.id row) eqn:Ex.
    - subst e. now apply Hne.
    - subst e. apply T. now exists x. }
  rewrite (update_employee_complete st1 id req name email salary position
             department (committed row) A1 G1 C T1).
  simpl. split; [reflexivity|]. fold row.
  rewrite E1. apply update_row_idempotent.
Qed.

Lemma update_is_idempotent_witness :
  let req := post [("name", "Bob"); ("email", "bob2@x.com");
                   ("position", "Lead"); ("department", "Ops");
                   ("salary", "1234.5")] in
  let st1 := snd (update_employee 2 req (signed_in [ann; bob])) in
  employees (snd (update_employee 2 req st1)) = employees st1.
Proof.
  intros req st1.
  refine (proj2 (update_is_idempotent (signed_in [ann; bob]) 2 req
                   "Bob" "bob2@x.com" "Lead" "Ops"
                   (S754_finite false 5429388417957888 (-42)) bob
                   eq_refl eq_refl _ _)).
  - repeat split; discriminate.
  - intros [e [[<-|[<-|[]]] [H1 H2]]]; [discriminate | now apply H2].
Defined.

(** ** What a request can and cannot change *)

(** Case analysis along the branches of a view; [tac] closes each one. *)
Ltac add_branches st req tac :=
  unfold add_employee, login_required, unauthorized; cbv zeta;
  destruct (is_authenticated st); [|tac];
  destruct (method req); [tac|];
  destruct (negb (truthy (form_get (form req) "name")) ||
            negb (truthy (form_get (form req) "email"))); [tac|];
  destruct (filter_by_email (form_get (form req) "email") (employees st));
    [tac|];
  destruct (read_salary (form_get (form req) "salary")); [|tac];
  destruct (form_getitem (form req) "position"); [|tac];
  destruct (form_getitem (form req) "department"); tac.

Ltac update_branches st id req tac :=
  unfold update_employee, login_required, unauthorized; cbv zeta;
  destruct (is_authenticated st); [|tac];
  destruct (get_or_404 id (employees st)) as [employee|] eqn:Found; [|tac];
  destruct (method req); [tac|];
  destruct (negb (truthy (form_get (form req) "name")) ||
            negb (truthy (form_get (form req) "email"))); [tac|];
  destruct (match filter_by_email (form_get (form req) "email")
                    (employees st) with
            | Some e => negb (Employee.id e =? id)
            | None => false
            end); [tac|];
  destruct (read_salary (form_get (form req) "salary")); [|tac];
  destruct (form_getitem (form req) "position"); [|tac];
  destruct (form_getitem (form req) "department"); tac.

Ltac delete_branches st id tac :=
  unfold delete_employee, login_required, unauthorized;
  destruct (is_authenticated st); [|tac];
  destruct (get_or_404 id (employees st)) as [employee|] eqn:Found; tac.

Lemma add_employee_table st req :
  employees (snd (add_employee req st)) = employees st \/
  exists new,
    employees (snd (add_employee req st)) = (employees st ++ [new])%list.
Proof.
  add_branches st req ltac:(simpl; auto).
  right. simpl. unfold insert_row. eexists. reflexivity.
Qed.

Lemma update_employee_table st id req :
  employees (snd (update_employee id req st)) = employees st \/
  exists row,
    Employee.id row = id /\
    employees (snd (update_employee id req st)) =
      update_row row (employees st).
Proof.
  update_branches st id req ltac:(simpl; auto).
  right. simpl. eexists. split; [|reflexivity]. simpl.
  now destruct (get_or_404_Some _ _ _ Found).
Qed.

Lemma delete_employee_table st id :
  employees (snd (delete_employee id st)) = employees st \/
  exists row,
    Employee.id row = id /\
    employees (snd (delete_employee id st)) =
      delete_row row (employees st).
Proof.
  delete_branches st id ltac:(simpl; auto).
  right. simpl. exists employee. split; [|reflexivity].
  now destruct (get_or_404_Some _ _ _ Found).
Qed.

(** X13: whatever the request and the state, creation only ever appends:
    the old table is kept, in order, followed by at most one new record;
    update keeps the sequence of ids and every record whose id is another
    than the one edited; delete never adds or alters a record and keeps
    every record whose id is another than the one deleted. *)
Theorem writes_are_confined :
  forall (st : state) (req : request) (id : Z),
    (exists tail,
       employees (snd (add_employee req st)) = (employees st ++ tail)%list /\
       (List.length tail <= 1)%nat) /\
    map Employee.id (employees (snd (update_employee id req st))) =
      map Employee.id (employees st) /\
    (forall e, Employee.id e <> id ->
       (In e (employees (snd (update_employee id req st))) <->
        In e (employees st))) /\
    (forall e, In e (employees (snd (delete_employee id st))) ->
               In e (employees st)) /\
    (forall e, In e (employees st) -> Employee.id e <> id ->
               In e (employees (snd (delete_employee id st)))).
Proof.
  intros st req id. split; [|split; [|split; [|split]]].
  - destruct (add_employee_table st req) as [-> | [new ->]].
    + exists []. rewrite app_nil_r. split; [reflexivity | simpl; lia].
    + exists [new]. split; [reflexivity | simpl; lia].
  - destruct (update_employee_table st id req) as [-> | [row [_ ->]]];
      [reflexivity | apply update_row_ids].
  - intros e Hne.
    destruct (update_employee_table st id req) as [-> | [row [Hid ->]]];
      [tauto|].
    split.
    + intros Hin. unfold update_row in Hin.
      apply in_map_iff in Hin as [x [Hx Hin]].
      destruct (Employee.id x =? Employee.id row); subst e;
        [now destruct Hne | assumption].
    + intros Hin. apply update_row_others; congruence.
  - intros e.
    destruct (delete_employee_table st id) as [-> | [row [_ ->]]];
      [tauto|].
    unfold delete_row. intros Hin. now apply filter_In in Hin.
  - intros e Hin Hne.
    destruct (delete_employee_table st id) as [-> | [row [Hid ->]]];
      [assumption|].
    unfold delete_row. apply filter_In. split; [assumption|].
    apply negb_true_iff, Z.eqb_neq. congruence.
Qed.

(** X14: flashed messages are only ever appended.  After any view, on any
    request and state, the messages flashed before are still there, in
    order, followed by at most one new message. *)
Theorem flashes_are_append_only :
  forall (check : string -> string -> bool) (st : state) (req : request)
         (id : Z),
    Forall (fun r => exists tail,
                flashes (snd r) = (flashes st ++ tail)%list /\
                (List.length tail <= 1)%nat)
      [login check req st; logout st; index st; add_employee req st;
       update_employee id req st; delete_employee id st].
Proof.
  intros check st req id.
  assert (Same : forall s : state, flashes s = flashes st ->
            exists tail, flashes s = (flashes st ++ tail)%list /\
                         (List.length tail <= 1)%nat).
  { intros s ->. exists []. rewrite app_nil_r.
    split; [reflexivity | simpl; lia]. }
  assert (One : forall (s : state) c, flashes s = (flashes st ++ [c])%list ->
            exists tail, flashes s = (flashes st ++ tail)%list /\
                         (List.length tail <= 1)%nat).
  { intros s c ->. exists [c]. split; [reflexivity | simpl; lia]. }
  repeat apply Forall_cons; [| | | | | | apply Forall_nil].
  - unfold login. destruct (is_authenticated st); [now apply Same|].
    destruct (method req); [now apply Same|].
    destruct (user_filter_by_username _ _) as [u|];
      [|eapply One; reflexivity].
    destruct (check_password check u _) as [[|]|];
      [eapply One; reflexivity | eapply One; reflexivity | now apply Same].
  - unfold logout, login_required, unauthorized.
    destruct (is_authenticated st);
      [now apply Same | eapply One; reflexivity].
  - unfold index, login_required, unauthorized.
    destruct (is_authenticated st);
      [now apply Same | eapply One; reflexivity].
  - add_branches st req
      ltac:(first [now apply Same | eapply One; reflexivity]).
  - update_branches st id req
      ltac:(first [now apply Same | eapply One; reflexivity]).
  - delete_branches st id
      ltac:(first [now apply Same | eapply One; reflexivity]).
Qed.

(** ** The user behind a session *)

(** X16: when an anonymous POST signs a user in (user ids and usernames
    being unique), the user that [load_user] finds for the session on the
    following requests is the stored user with the submitted username, the
    one whose hash verified the password. *)
Theorem session_loads_the_verified_user :
  forall (check : string -> string -> bool) (st : state) (req : request)
         (username password : string) (u : User.t),
    is_authenticated st = false ->
    unique_user_ids (users st) ->
    unique_usernames (users st) ->
    credentials req username password ->
    In u (users st) ->
    User.username u = username ->
    check (User.password_hash u) password = true ->
    current_user (snd (login check req st)) = Some u.
Proof.
  intros check st req username password u A Ui Un (M & Hu & Hp) Hin Hn C.
  unfold login. rewrite A, M, Hu, Hp.
  destruct (user_filter_by_username (Some username) (users st)) as [v|]
    eqn:F.
  - apply user_filter_by_username_Some in F as [Hv Hvn].
    assert (v = u)
      by (apply (NoDup_map_eq User.username (users st));
          [exact Un | assumption | assumption | congruence]).
    subst v. simpl. rewrite C. simpl. unfold current_user. simpl.
    unfold user_get.
    destruct (find (fun x => User.id x =? User.id u) (users st)) as [w|]
      eqn:G.
    + apply find_some in G as [Hw Hwi]. apply Z.eqb_eq in Hwi. f_equal.
      apply (NoDup_map_eq User.id (users st)); auto.
    + pose proof (find_none _ _ G u Hin) as K. simpl in K.
      now rewrite Z.eqb_refl in K.
  - now destruct (user_filter_by_username_None _ _ F u Hin).
Qed.

Lemma session_loads_the_verified_user_witness :
  let req := post [("username", "admin"); ("password", "password123")] in
  current_user (snd (login toy_check req (anonymous [ann]))) = Some admin.
Proof.
  intros req.
  apply (session_loads_the_verified_user toy_check (anonymous [ann]) req
           "admin" "password123" admin).
  - reflexivity.
  - unfold unique_user_ids. simpl. repeat constructor. simpl. tauto.
  - unfold unique_usernames. simpl. repeat constructor. simpl. tauto.
  - repeat split.
  - now left.
  - reflexivity.
  - reflexivity.
Defined.

(** ** The printed form of an employee *)

Lemma append_cancel_r (x y t : string) :
  t <> "" -> List.length (list_ascii_of_string t) = 1%nat ->
  x ++ t = y ++ t -> x = y.
Proof.
  intros Ht L. destruct t as [|c [|c' t']]; try contradiction;
    try discriminate. clear Ht L.
  revert y. induction x as [|a x IH]; intros [|b y]; simpl; intros H.
  - reflexivity.
  - injection H as _ H. destruct y; discriminate.
  - injection H as _ H. destruct x; discriminate.
  - injection H as -> H. f_equal. now apply IH.
Qed.

(** X17: the printed form of an employee shows the name and nothing else:
    two employees print alike exactly when they have the same name,
    whatever their ids, emails and other fields. *)
Theorem repr_shows_the_name_only :
  forall e1 e2 : Employee.t,
    employee_repr e1 = employee_repr e2 <->
    Employee.name e1 = Employee.name e2.
Proof.
  intros e1 e2. unfold employee_repr. split.
  - intros H. simpl in H. injection H as H.
    apply (append_cancel_r _ _ ">"); [discriminate | reflexivity | exact H].
  - now intros ->.
Qed.

(** ** A deleted record frees its email *)

(** X18: over a table with unique emails, once a stored record has been
    deleted no record holds its email any more, so a complete create
    request that submits this email passes the duplicate check and is
    stored. *)
Theorem delete_frees_the_email :
  forall (st : state) (e : Employee.t) (req : request)
         (name position department : string) (salary : PyFloat.pyfloat),
    is_authenticated st = true ->
    unique_emails (employees st) ->
    unique_ids (employees st) ->
    In e (employees st) ->
    complete req name (Employee.email e) salary position department ->
    let st1 := snd (delete_employee (Employee.id e) st) in
    ~ email_taken (Employee.email e) (employees st1) /\
    fst (add_employee req st1) = Redirect ep_index /\
    filter_by_email (Some (Employee.email e))
      (employees (snd (add_employee req st1))) =
      Some (Employee.mk (next_id (employees st1)) name position
              (Some department) (Employee.email e)
              (real_column (Some salary))).
Proof.
  intros st e req name position department salary A Ue Ui Hin C st1.
  assert (A1 : is_authenticated st1 = true)
    by (subst st1; now rewrite delete_keeps_authenticated).
  assert (E1 : employees st1 = delete_row e (employees st)).
  { subst st1. unfold delete_employee.
    rewrite login_required_in by assumption.
    now rewrite (get_or_404_In (Employee.id e) _ e Ui Hin eq_refl). }
  assert (Free : ~ email_taken (Employee.email e) (employees st1)).
  { rewrite E1. intros [x [Hx Hm]]. unfold delete_row in Hx.
    apply filter_In in Hx as [Hx Hne].
    apply negb_true_iff, Z.eqb_neq in Hne. apply Hne. f_equal.
    apply (NoDup_map_eq Employee.email (employees st)); auto. }
  split; [exact Free|].
  rewrite (add_employee_complete st1 req name (Employee.email e) salary
             position department A1 C Free).
  split; [reflexivity|].
  simpl. rewrite find_app_first.
  apply filter_by_email_None in Free. simpl in Free. rewrite Free.
  simpl. now rewrite String.eqb_refl.
Qed.

Lemma delete_frees_the_email_witness :
  let req := post [("name", "Ann B"); ("email", "ann@x.com");
                   ("position", "Eng"); ("department", "R&D")] in
  fst (add_employee req (snd (delete_employee 1 (signed_in [ann; bob])))) =
    Redirect ep_index.
Proof.
  intros req.
  refine (proj1 (proj2 (delete_frees_the_email (signed_in [ann; bob]) ann req
                          "Ann B" "Eng" "R&D" PyFloat.zero
                          eq_refl _ _ _ _))).
  - unfold unique_emails. simpl.
    repeat constructor; simpl; intuition discriminate.
  - unfold unique_ids. simpl.
    repeat constructor; simpl; intuition discriminate.
  - now left.
  - repeat split; discriminate.
Defined.
